(** * keystoneauth.access: a shallow embedding of the token accessors

    The module [keystoneauth/access.py] decodes an identity-token response
    (a parsed JSON body) into a read-only accessor.  Two wire schemas exist:
    the older one keeps everything under the top-level key ["access"]
    ([AccessInfoV2]), the newer one under ["token"] ([AccessInfoV3]).

    The embedding follows the Python text: values are Python values, a
    property is a function from the instance to a [result], and an exception
    is the [Err] branch of that result, so that [try]/[except KeyError] and
    the [missingproperty] decorator can be written as they are in the source. *)

From stdpp Require Import base option list strings gmap fin_maps.
From Stdlib Require Import ZArith QArith.QArith_base Lia.
From stdpp Require Import pretty.

#[local] Set Warnings "-register-all".
#[local] Open Scope string_scope.
#[local] Open Scope Z_scope.

(** ** Python values *)

(** A [datetime]: the wall-clock fields counted in microseconds, and the
    offset from UTC of an aware value ([None] for a naive one). *)
Record datetime : Type := mk_datetime {
  wall : Z;
  utcoffset : option Z
}.

(** The values a parsed body is made of (JSON null, booleans, numbers,
    strings, arrays and objects), plus the [datetime] objects that the
    timestamp parser returns. *)
Inductive value : Type :=
| VNone
| VBool (b : bool)
| VInt (n : Z)
| VFloat (q : Q)
| VStr (s : string)
| VList (l : list value)
| VDict (d : gmap string value)
| VDatetime (t : datetime).

(** The exceptions that can leave the module. *)
Inductive exn : Type :=
| KeyError (key : string)
| TypeError
| AttributeError
| ValueError (msg : string)
| NotImplementedError
| OtherError (msg : string).

Inductive result (A : Type) : Type :=
| Ok (x : A)
| Err (e : exn).
Arguments Ok {A} x.
Arguments Err {A} e.

#[global] Instance result_ret : MRet result := fun A x => Ok x.
#[global] Instance result_bind : MBind result := fun A B f m =>
  match m with
  | Ok x => f x
  | Err e => Err e
  end.

#[global] Instance result_fmap : FMap result := fun A B f m =>
  match m with
  | Ok x => Ok (f x)
  | Err e => Err e
  end.

Definition is_Ok {A} (r : result A) : bool :=
  match r with Ok _ => true | Err _ => false end.

Definition raises {A} (r : result A) : bool := negb (is_Ok r).

Definition is_KeyError {A} (r : result A) : bool :=
  match r with Err (KeyError _) => true | _ => false end.

(** ** The Python operations the module uses *)

Module Py.

(** [bool(v)], the truth value used by [if], [not], [and] and [or]. *)
Definition truthy (v : value) : bool :=
  match v with
  | VNone => false
  | VBool b => b
  | VInt n => negb (n =? 0)
  | VFloat q => negb (Qeq_bool q 0)
  | VStr s => negb (String.eqb s "")
  | VList l => match l with [] => false | _ :: _ => true end
  | VDict d => negb (Nat.eqb (size d) 0)
  | VDatetime _ => true
  end.

(** [c[k]] with a string key: only a dict can be subscripted this way. *)
Definition getitem (c : value) (k : string) : result value :=
  match c with
  | VDict d =>
      match d !! k with
      | Some v => Ok v
      | None => Err (KeyError k)
      end
  | _ => Err TypeError
  end.

(** [c.get(k, dflt)]: a dict method, absent from every other value. *)
Definition get (c : value) (k : string) (dflt : value) : result value :=
  match c with
  | VDict d => Ok (default dflt (d !! k))
  | _ => Err AttributeError
  end.

Definition is_substring (k s : string) : bool :=
  match String.index 0 k s with Some _ => true | None => false end.

(** [k in c] for a string [k]: key membership in a dict, element
    membership in a list, substring test in a string. *)
Definition contains (k : string) (c : value) : result bool :=
  match c with
  | VDict d => Ok (match d !! k with Some _ => true | None => false end)
  | VList l =>
      Ok (existsb (fun v => match v with
                            | VStr s => String.eqb k s
                            | _ => false
                            end) l)
  | VStr s => Ok (is_substring k s)
  | _ => Err TypeError
  end.

(** [a or b]: [a] when it is truthy, otherwise whatever [b] evaluates to. *)
Definition or (a : value) (b : result value) : result value :=
  if truthy a then Ok a else b.

(** [IndexError], raised by a sequence subscript out of range. *)
Definition IndexError : exn := OtherError "IndexError".

Definition is_IndexError (e : exn) : bool :=
  match e with
  | OtherError msg => String.eqb msg "IndexError"
  | _ => false
  end.

(** [c[i]] with a non-negative integer [i]: an element of a list, a
    character of a string; a dict (whose keys are strings) has no such
    key, and nothing else can be subscripted. *)
Definition getindex (c : value) (i : nat) : result value :=
  match c with
  | VList l =>
      match l !! i with
      | Some v => Ok v
      | None => Err IndexError
      end
  | VStr s =>
      match String.get i s with
      | Some ch => Ok (VStr (String ch ""))
      | None => Err IndexError
      end
  | VDict _ => Err (KeyError (pretty i))
  | _ => Err TypeError
  end.

(** [iter(c)], what a [for] clause runs over: the elements of a list, the
    characters of a string, the keys of a dict (strings; the embedding
    lists them in the order of the map, not in insertion order). *)
Definition iter (c : value) : result (list value) :=
  match c with
  | VList l => Ok l
  | VStr s => Ok ((fun ch => VStr (String ch "")) <$> String.list_ascii_of_string s)
  | VDict d => Ok ((fun kv => VStr kv.1) <$> map_to_list d)
  | _ => Err TypeError
  end.

(** The comprehension [[r[k] for r in c]]. *)
Definition getitem_each (k : string) (c : value) : result value :=
  items ← iter c;
  VList <$> mapM (fun r => getitem r k) items.

End Py.

(** ** External collaborators *)

(** [oslo_utils.timeutils], as far as [access.py] relies on it.  The clock
    ([utcnow]) is an argument of the functions that read it. *)
Module timeutils.

(** [normalize_time(timestamp)]: an aware timestamp becomes the naive UTC
    one, a naive timestamp is returned as it is.  The method call
    [timestamp.utcoffset()] exists on [datetime] objects only. *)
Definition normalize_time (timestamp : value) : result datetime :=
  match timestamp with
  | VDatetime t =>
      match utcoffset t with
      | None => Ok t
      | Some offset => Ok (mk_datetime (wall t - offset) None)
      end
  | _ => Err AttributeError
  end.

(** [datetime.timedelta(seconds=s)], in microseconds. *)
Definition timedelta_seconds (s : Z) : Z := s * 1000000.

(** [t + delta] keeps the time zone of [t]. *)
Definition add (t : datetime) (delta : Z) : datetime :=
  mk_datetime (wall t + delta) (utcoffset t).

(** [a < b]: two naive values compare by their fields, two aware values
    by their UTC instants, and mixing the two kinds is a [TypeError]. *)
Definition lt (a b : datetime) : result bool :=
  match utcoffset a, utcoffset b with
  | None, None => Ok (wall a <? wall b)
  | Some oa, Some ob => Ok (wall a - oa <? wall b - ob)
  | _, _ => Err TypeError
  end.

(** [utcnow()] at clock reading [now]: a naive UTC timestamp. *)
Definition utcnow (now : Z) : datetime := mk_datetime now None.

End timeutils.

(** A transport response: its truth value (what [if resp] sees), the
    decoded body that [resp.json()] returns, and [resp.headers.get]. *)
Record Response : Type := mk_Response {
  resp_bool : bool;
  resp_json : result value;
  resp_headers_get : string -> value
}.

(** ** The accessor classes *)

(** gap, in seconds, to determine whether the given token is about to expire *)
Definition STALE_TOKEN_DURATION : Z := 30.

(** The decorator [missingproperty]: the wrapped getter, with [KeyError]
    (and nothing else) turned into [None]. *)
Definition missingproperty (f : result value) : result value :=
  match f with
  | Err (KeyError _) => Ok VNone
  | r => r
  end.

Inductive Version : Type := V2 | V3.

(** A reference to a catalog object on the heap. *)
Definition ObjRef : Type := nat.

Module AccessInfo.

(** The instance: the class it was built from and the three attributes
    set by [__init__]. *)
Record t : Type := mk {
  version : Version;
  _data : value;
  _auth_token : value;
  _service_catalog : option ObjRef
}.

Definition __init__ (cls : Version) (body auth_token : value) : t :=
  {| version := cls;
     _data := body;
     _auth_token := auth_token;
     _service_catalog := None |}.

(** The base-class property [auth_token]. *)
Definition auth_token (self : t) : result value := Ok (_auth_token self).

Definition set_service_catalog (self : t) (r : ObjRef) : t :=
  {| version := version self;
     _data := _data self;
     _auth_token := _auth_token self;
     _service_catalog := Some r |}.

End AccessInfo.

(** The constructor calls [AccessInfoV2(body, auth_token)] and
    [AccessInfoV3(body, auth_token)]: both classes inherit [__init__]. *)
Definition new_AccessInfoV2 (body auth_token : value) : AccessInfo.t :=
  AccessInfo.__init__ V2 body auth_token.
Definition new_AccessInfoV3 (body auth_token : value) : AccessInfo.t :=
  AccessInfo.__init__ V3 body auth_token.

(** *** The older schema *)

Module AccessInfoV2.
Import AccessInfo.

Definition auth_token (self : t) : result value :=
  missingproperty (
    set_token ← AccessInfo.auth_token self;
    Py.or set_token (
      access ← Py.getitem (_data self) "access";
      token ← Py.getitem access "token";
      Py.getitem token "id")).

Definition _token (self : t) : result value :=
  missingproperty (
    access ← Py.getitem (_data self) "access";
    Py.getitem access "token").

Definition issued (self : t) : result value :=
  missingproperty (
    token ← _token self;
    Py.getitem token "issued_at").

Definition _user (self : t) : result value :=
  access ← Py.getitem (_data self) "access";
  Py.getitem access "user".

Definition username (self : t) : result value :=
  missingproperty (
    user ← _user self;
    name ← Py.get user "name" VNone;
    Py.or name (user' ← _user self; Py.get user' "username" VNone)).

Definition user_id (self : t) : result value :=
  missingproperty (user ← _user self; Py.getitem user "id").

Definition user_domain_id (self : t) : result value := Ok VNone.
Definition user_domain_name (self : t) : result value := Ok VNone.

(** [self.get]: the attribute is looked up on the instance.  [AccessInfo]
    derives from [object], and neither it nor [AccessInfoV2] defines [get]
    or [__getattr__], so the lookup itself raises. *)
Definition self_get (self : t) : result (string -> value -> result value) :=
  Err AttributeError.

Definition role_ids (self : t) : result value :=
  missingproperty (
    get ← self_get self;
    metadata ← get "metadata" (VDict ∅);
    Py.get metadata "roles" (VList [])).

Definition domain_name (self : t) : result value := Ok VNone.
Definition domain_id (self : t) : result value := Ok VNone.

Definition project_name (self : t) : result value :=
  match (token ← _token self; Py.getitem token "tenant") with
  | Ok tenant_dict => Py.get tenant_dict "name" VNone
  | Err (KeyError _) =>
      (* pre grizzly *)
      match (user ← _user self; Py.getitem user "tenantName") with
      | Ok v => Ok v
      | Err (KeyError _) =>
          (* pre diablo, keystone only provided a tenantId *)
          match (token ← _token self; Py.getitem token "tenantId") with
          | Ok v => Ok v
          | Err (KeyError _) => Ok VNone
          | Err e => Err e
          end
      | Err e => Err e
      end
  | Err e => Err e
  end.

Definition project_scoped (self : t) : result bool :=
  token ← _token self;
  Py.contains "tenant" token.

Definition domain_scoped (self : t) : result bool := Ok false.

Definition _trust (self : t) : result value :=
  access ← Py.getitem (_data self) "access";
  Py.getitem access "trust".

Definition trust_id (self : t) : result value :=
  missingproperty (trust ← _trust self; Py.getitem trust "id").

Definition trust_scoped (self : t) : result bool :=
  trust ← _trust self;
  Ok (Py.truthy trust).

Definition trustee_user_id (self : t) : result value :=
  missingproperty (trust ← _trust self; Py.getitem trust "trustee_user_id").

Definition trustor_user_id (self : t) : result value := Ok VNone.

Definition project_id (self : t) : result value :=
  match (token ← _token self; Py.getitem token "tenant") with
  | Ok tenant_dict => Py.get tenant_dict "id" VNone
  | Err (KeyError _) =>
      match (user ← _user self; Py.getitem user "tenantId") with
      | Ok v => Ok v
      | Err (KeyError _) =>
          match (token ← _token self; Py.getitem token "tenantId") with
          | Ok v => Ok v
          | Err (KeyError _) => Ok VNone
          | Err e => Err e
          end
      | Err e => Err e
      end
  | Err e => Err e
  end.

Definition project_domain_id (self : t) : result value := Ok VNone.
Definition project_domain_name (self : t) : result value := Ok VNone.
Definition is_federated (self : t) : result bool := Ok false.

Section Expires.
(** [timeutils.parse_isotime], the ISO 8601 parser of the time library. *)
Variable parse_isotime : value -> result datetime.

Definition expires (self : t) : result value :=
  missingproperty (
    token ← _token self;
    e ← Py.get token "expires" VNone;
    VDatetime <$> parse_isotime e).
End Expires.

(** ['serviceCatalog' in self]: the instance is no container (no
    [__contains__], [__iter__] or [__getitem__] in its classes). *)
Definition has_service_catalog (self : t) : result bool := Err TypeError.

Definition role_names (self : t) : result value :=
  missingproperty (
    user ← _user self;
    roles ← Py.get user "roles" (VList []);
    Py.getitem_each "name" roles).

Definition oauth_access_token_id (self : t) : result value := Ok VNone.
Definition oauth_consumer_id (self : t) : result value := Ok VNone.

Definition audit_id (self : t) : result value :=
  match (token ← _token self;
         audit_ids ← Py.get token "audit_ids" (VList []);
         Py.getindex audit_ids 0 : result value) with
  | Err e => if Py.is_IndexError e then Ok VNone else Err e
  | r => r
  end.

Definition audit_chain_id (self : t) : result value :=
  match (token ← _token self;
         audit_ids ← Py.get token "audit_ids" (VList []);
         Py.getindex audit_ids 1 : result value) with
  | Err e => if Py.is_IndexError e then Ok VNone else Err e
  | r => r
  end.

End AccessInfoV2.

(** *** The newer schema *)

Module AccessInfoV3.
Import AccessInfo.

Definition _user (self : t) : result value :=
  token ← Py.getitem (_data self) "token";
  Py.getitem token "user".

Definition is_federated (self : t) : result bool :=
  user ← _user self;
  Py.contains "OS-FEDERATION" user.

Definition user_id (self : t) : result value :=
  missingproperty (user ← _user self; Py.getitem user "id").

Definition user_domain_id (self : t) : result value :=
  match (user ← _user self;
         domain ← Py.getitem user "domain";
         Py.getitem domain "id" : result value) with
  | Err (KeyError k) =>
      federated ← is_federated self;
      if (federated : bool) then Ok VNone else Err (KeyError k)
  | r => r
  end.

Definition user_domain_name (self : t) : result value :=
  match (user ← _user self;
         domain ← Py.getitem user "domain";
         Py.getitem domain "name" : result value) with
  | Err (KeyError k) =>
      federated ← is_federated self;
      if (federated : bool) then Ok VNone else Err (KeyError k)
  | r => r
  end.

Definition username (self : t) : result value :=
  missingproperty (user ← _user self; Py.getitem user "name").

Definition _domain (self : t) : result value :=
  missingproperty (
    token ← Py.getitem (_data self) "token";
    Py.getitem token "domain").

Definition domain_name (self : t) : result value :=
  missingproperty (domain ← _domain self; Py.getitem domain "name").

Definition domain_id (self : t) : result value :=
  missingproperty (domain ← _domain self; Py.getitem domain "id").

Definition _project (self : t) : result value :=
  token ← Py.getitem (_data self) "token";
  Py.getitem token "project".

Definition project_id (self : t) : result value :=
  missingproperty (project ← _project self; Py.getitem project "id").

Definition project_domain_id (self : t) : result value :=
  missingproperty (
    project ← _project self;
    domain ← Py.getitem project "domain";
    Py.getitem domain "id").

Definition project_domain_name (self : t) : result value :=
  project ← _project self;
  domain ← Py.getitem project "domain";
  Py.getitem domain "name".

Definition project_name (self : t) : result value :=
  missingproperty (project ← _project self; Py.getitem project "name").

Definition project_scoped (self : t) : result bool :=
  match (project ← _project self; Ok (Py.truthy project) : result bool) with
  | Err (KeyError _) => Ok false
  | r => r
  end.

Definition domain_scoped (self : t) : result bool :=
  match (domain ← _domain self; Ok (Py.truthy domain) : result bool) with
  | Err (KeyError _) => Ok false
  | r => r
  end.

Definition _trust (self : t) : result value :=
  token ← Py.getitem (_data self) "token";
  Py.getitem token "OS-TRUST:trust".

Definition trust_id (self : t) : result value :=
  missingproperty (trust ← _trust self; Py.getitem trust "id").

Definition trust_scoped (self : t) : result bool :=
  match (trust ← _trust self; Ok (Py.truthy trust) : result bool) with
  | Err (KeyError _) => Ok false
  | r => r
  end.

Section Expires.
Variable parse_isotime : value -> result datetime.

Definition expires (self : t) : result value :=
  missingproperty (
    token ← Py.getitem (_data self) "token";
    e ← Py.getitem token "expires_at";
    VDatetime <$> parse_isotime e).

Definition issued (self : t) : result value :=
  missingproperty (
    token ← Py.getitem (_data self) "token";
    e ← Py.getitem token "issued_at";
    VDatetime <$> parse_isotime e).
End Expires.

Definition has_service_catalog (self : t) : result bool :=
  token ← Py.getitem (_data self) "token";
  Py.contains "catalog" token.

Definition role_ids (self : t) : result value :=
  missingproperty (
    token ← Py.getitem (_data self) "token";
    roles ← Py.get token "roles" (VList []);
    Py.getitem_each "id" roles).

Definition role_names (self : t) : result value :=
  missingproperty (
    token ← Py.getitem (_data self) "token";
    roles ← Py.get token "roles" (VList []);
    Py.getitem_each "name" roles).

Definition trustee_user_id (self : t) : result value :=
  missingproperty (
    trust ← _trust self;
    trustee_user ← Py.getitem trust "trustee_user";
    Py.getitem trustee_user "id").

Definition trustor_user_id (self : t) : result value :=
  missingproperty (
    trust ← _trust self;
    trustor_user ← Py.getitem trust "trustor_user";
    Py.getitem trustor_user "id").

Definition _oauth (self : t) : result value :=
  token ← Py.getitem (_data self) "token";
  Py.getitem token "OS-OAUTH1".

Definition oauth_access_token_id (self : t) : result value :=
  missingproperty (oauth ← _oauth self; Py.getitem oauth "access_token_id").

Definition oauth_consumer_id (self : t) : result value :=
  missingproperty (oauth ← _oauth self; Py.getitem oauth "consumer_id").

Definition audit_id (self : t) : result value :=
  missingproperty (
    match (token ← Py.getitem (_data self) "token";
           audit_ids ← Py.getitem token "audit_ids";
           Py.getindex audit_ids 0 : result value) with
    | Err e => if Py.is_IndexError e then Ok VNone else Err e
    | r => r
    end).

Definition audit_chain_id (self : t) : result value :=
  missingproperty (
    match (token ← Py.getitem (_data self) "token";
           audit_ids ← Py.getitem token "audit_ids";
           Py.getindex audit_ids 1 : result value) with
    | Err e => if Py.is_IndexError e then Ok VNone else Err e
    | r => r
    end).

End AccessInfoV3.

(** *** What the base class shares between the two *)

Section Shared.
Import AccessInfo.

Variable parse_isotime : value -> result datetime.

(** [self.expires], resolved on the class of the instance. *)
Definition expires (self : t) : result value :=
  match version self with
  | V2 => AccessInfoV2.expires parse_isotime self
  | V3 => AccessInfoV3.expires parse_isotime self
  end.

(** [will_expire_soon(stale_duration)], read at clock value [now]
    (microseconds); [stale_duration] is in seconds, [None] when the
    caller leaves the default. *)
Definition will_expire_soon (self : t) (now : Z) (stale_duration : option Z)
  : result bool :=
  let stale_duration :=
    match stale_duration with
    | None => STALE_TOKEN_DURATION
    | Some d => d
    end in
  e ← expires self;
  norm_expires ← timeutils.normalize_time e;
  let soon := timeutils.add (timeutils.utcnow now)
                (timeutils.timedelta_seconds stale_duration) in
  timeutils.lt norm_expires soon.

End Shared.

(** *** The lazily built service catalog *)

Section ServiceCatalog.
Import AccessInfo.

(** The catalog classes live in [keystoneauth/service_catalog.py]; the
    accessor only uses their constructor [from_token] and the truth value
    of the object it returns. *)
Variable Catalog : Type.
Variable from_token : Version -> value -> result Catalog.
Variable catalog_bool : Catalog -> bool.

(** The part of the interpreter state that [service_catalog] touches:
    the catalog objects allocated so far (an object's identity is its
    position) and the number of calls made to [from_token]. *)
Record World : Type := mk_World {
  heap : list Catalog;
  from_token_calls : nat
}.

Definition count_call (w : World) : World :=
  {| heap := heap w; from_token_calls := S (from_token_calls w) |}.

Definition alloc (c : Catalog) (w : World) : ObjRef * World :=
  (length (heap w),
   {| heap := heap w ++ [c]; from_token_calls := from_token_calls w |}).

(** [bool(r)] for a reference held in [_service_catalog]. *)
Definition ref_truthy (w : World) (r : ObjRef) : bool :=
  match heap w !! r with
  | Some c => catalog_bool c
  | None => false
  end.

Definition build_catalog (self : t) (w : World)
  : result ObjRef * t * World :=
  let w := count_call w in
  match from_token (version self) (_data self) with
  | Err e => (Err e, self, w)
  | Ok c =>
      let '(r, w) := alloc c w in
      (Ok r, set_service_catalog self r, w)
  end.

Definition service_catalog (self : t) (w : World)
  : result ObjRef * t * World :=
  match _service_catalog self with
  | None => build_catalog self w
  | Some r =>
      if negb (ref_truthy w r) then build_catalog self w
      else (Ok r, self, w)
  end.

(** [n] reads of the property, one after the other, on the same
    instance; the results are listed in call order. *)
Fixpoint service_catalog_calls (n : nat) (self : t) (w : World)
  : list (result ObjRef) * t * World :=
  match n with
  | O => ([], self, w)
  | S n' =>
      let '(r, self, w) := service_catalog self w in
      let '(rs, self, w) := service_catalog_calls n' self w in
      (r :: rs, self, w)
  end.

End ServiceCatalog.

Arguments heap {Catalog} w.
Arguments from_token_calls {Catalog} w.
Arguments mk_World {Catalog} heap from_token_calls.
Arguments count_call {Catalog} w.
Arguments alloc {Catalog} c w.
Arguments ref_truthy {Catalog} catalog_bool w r.
Arguments build_catalog {Catalog} from_token self w.
Arguments service_catalog {Catalog} from_token catalog_bool self w.
Arguments service_catalog_calls {Catalog} from_token catalog_bool n self w.

(** *** The factory *)

(** [create(resp, body, auth_token)]; an omitted argument is [None]. *)
Definition create (resp : option Response) (body auth_token : value)
  : result AccessInfo.t :=
  body ← match resp with
         | Some r =>
             if resp_bool r && negb (Py.truthy body) then resp_json r
             else Ok body
         | None => Ok body
         end;
  is_v3 ← Py.contains "token" body;
  if (is_v3 : bool) then
    let auth_token :=
      match resp with
      | Some r =>
          if resp_bool r && negb (Py.truthy auth_token)
          then resp_headers_get r "X-Subject-Token"
          else auth_token
      | None => auth_token
      end in
    Ok (new_AccessInfoV3 body auth_token)
  else
    is_v2 ← Py.contains "access" body;
    if (is_v2 : bool) then Ok (new_AccessInfoV2 body auth_token)
    else Err (ValueError "Unrecognized auth response").

(** The body that [create] dispatches on: the one decoded from the
    response when there is a response and no body was passed. *)
Definition payload (resp : option Response) (body : value) : result value :=
  match resp with
  | Some r =>
      if resp_bool r && negb (Py.truthy body) then resp_json r else Ok body
  | None => Ok body
  end.

(** The bearer token [create] hands to the newer-schema accessor: the
    response header when there is a response and no token was passed. *)
Definition subject_token (resp : option Response) (auth_token : value)
  : value :=
  match resp with
  | Some r =>
      if resp_bool r && negb (Py.truthy auth_token)
      then resp_headers_get r "X-Subject-Token"
      else auth_token
  | None => auth_token
  end.

(** *** Properties resolved on the class of the instance, and what the
    base class derives from them *)

Definition auth_token (self : AccessInfo.t) : result value :=
  match AccessInfo.version self with
  | V2 => AccessInfoV2.auth_token self
  | V3 => AccessInfo.auth_token self
  end.

Definition project_name (self : AccessInfo.t) : result value :=
  match AccessInfo.version self with
  | V2 => AccessInfoV2.project_name self
  | V3 => AccessInfoV3.project_name self
  end.

Definition project_id (self : AccessInfo.t) : result value :=
  match AccessInfo.version self with
  | V2 => AccessInfoV2.project_id self
  | V3 => AccessInfoV3.project_id self
  end.

Definition project_scoped (self : AccessInfo.t) : result bool :=
  match AccessInfo.version self with
  | V2 => AccessInfoV2.project_scoped self
  | V3 => AccessInfoV3.project_scoped self
  end.

Definition domain_scoped (self : AccessInfo.t) : result bool :=
  match AccessInfo.version self with
  | V2 => AccessInfoV2.domain_scoped self
  | V3 => AccessInfoV3.domain_scoped self
  end.

Definition audit_id (self : AccessInfo.t) : result value :=
  match AccessInfo.version self with
  | V2 => AccessInfoV2.audit_id self
  | V3 => AccessInfoV3.audit_id self
  end.

Definition audit_chain_id (self : AccessInfo.t) : result value :=
  match AccessInfo.version self with
  | V2 => AccessInfoV2.audit_chain_id self
  | V3 => AccessInfoV3.audit_chain_id self
  end.

(** Synonym for project_name. *)
Definition tenant_name (self : AccessInfo.t) : result value :=
  project_name self.

(** Synonym for project_id. *)
Definition tenant_id (self : AccessInfo.t) : result value :=
  project_id self.

(** [self.project_scoped or self.domain_scoped], on two booleans. *)
Definition scoped (self : AccessInfo.t) : result bool :=
  p ← project_scoped self;
  if (p : bool) then Ok true else domain_scoped self.

(** [self.audit_chain_id or self.audit_id]. *)
Definition initial_audit_id (self : AccessInfo.t) : result value :=
  chain ← audit_chain_id self;
  Py.or chain (audit_id self).

(** The cache of an accessor holds nothing that a read of
    [service_catalog] would accept: it is empty, or the object in it is
    falsy. *)
Definition cache_unusable {Catalog : Type} (catalog_bool : Catalog -> bool)
    (self : AccessInfo.t) (w : World Catalog) : Prop :=
  match AccessInfo._service_catalog self with
  | None => True
  | Some r => ref_truthy catalog_bool w r = false
  end.

(** Where the token subtree sits in the payload of each schema. *)
Definition token_path (cls : Version) : list string :=
  match cls with
  | V2 => ["access"; "token"]
  | V3 => ["token"]
  end.

(** ** Vocabulary for the statements *)

(** Walks down a path of keys, one subscript per key. *)
Fixpoint lookup_path (v : value) (path : list string) : result value :=
  match path with
  | [] => Ok v
  | k :: rest => v' ← Py.getitem v k; lookup_path v' rest
  end.

(** A path is missing below [v] when the walk stops at a dict that lacks
    the next key. *)
Definition path_missing (v : value) (path : list string) : Prop :=
  is_KeyError (lookup_path v path) = true.

(** The UTC instant a timestamp denotes, in microseconds. *)
Definition utc_instant (t : datetime) : Z :=
  match utcoffset t with
  | None => wall t
  | Some offset => wall t - offset
  end.

Definition seconds (s : Z) : Z := s * 1000000.

(** ** Sample payloads *)

Module Samples.

Definition dict (l : list (string * value)) : value :=
  VDict (list_to_map l).

(** Older schema, unscoped: a token and a user, no trust, no tenant. *)
Definition v2_unscoped : value :=
  dict [("access",
         dict [("token", dict [("id", VStr "abc");
                               ("expires", VStr "2038-01-18T21:14:07Z")]);
               ("user", dict [("id", VStr "u1"); ("name", VStr "joe")]);
               ("metadata", dict [("roles", VList [VStr "r1"])])])].

(** Older schema with a trust. *)
Definition v2_trust : value :=
  dict [("access",
         dict [("token", dict [("id", VStr "abc")]);
               ("trust", dict [("id", VStr "t1");
                               ("trustee_user_id", VStr "u1")])])].

(** Older schema, nothing below ["access"]. *)
Definition v2_empty : value := dict [("access", dict [])].

(** Older schema: a tenant without a name, and the older field
    [tenantName] on the user. *)
Definition v2_tenant_no_name : value :=
  dict [("access",
         dict [("token", dict [("id", VStr "abc"); ("tenant", dict [])]);
               ("user", dict [("tenantName", VStr "B")])])].

Definition v2_tenant_A : value :=
  dict [("access",
         dict [("token", dict [("tenant", dict [("name", VStr "A")])]);
               ("user", dict [("tenantName", VStr "B")])])].

Definition v2_tenantName_B : value :=
  dict [("access",
         dict [("token", dict [("tenantId", VStr "X")]);
               ("user", dict [("tenantName", VStr "B")])])].

Definition v2_tenantId_X : value :=
  dict [("access",
         dict [("token", dict [("tenantId", VStr "X")]);
               ("user", dict [("id", VStr "u1")])])].

(** Newer schema: a project without a domain. *)
Definition v3_project_no_domain : value :=
  dict [("token", dict [("project", dict [("id", VStr "p1")])])].

(** Newer schema: a federated user without a domain, and the same user
    without the federation marker. *)
Definition v3_federated : value :=
  dict [("token",
         dict [("user", dict [("id", VStr "u1");
                              ("OS-FEDERATION", dict [])])])].

Definition v3_not_federated : value :=
  dict [("token", dict [("user", dict [("id", VStr "u1")])])].

(** Both top-level keys at once. *)
Definition both_keys : value :=
  dict [("token", dict []); ("access", dict [])].

Definition neither_key : value := dict [("error", VStr "x")].

(** A parser for the samples: the decimal number of microseconds since
    the epoch, already decoded, stands for the timestamp text. *)
Definition parse_micros (v : value) : result datetime :=
  match v with
  | VInt n => Ok (mk_datetime n None)
  | _ => Err (ValueError "not a timestamp")
  end.

Definition v3_expires_at (n : Z) : value :=
  dict [("token", dict [("expires_at", VInt n)])].

(** The mapping inside a dict value. *)
Definition fields (v : value) : gmap string value :=
  match v with
  | VDict d => d
  | _ => ∅
  end.

(** A stub builder: the catalog is the catalog subtree of the payload,
    and the object is truthy like any plain object. *)
Definition stub_from_token (cls : Version) (token : value)
  : result value :=
  match cls with
  | V2 => access ← Py.getitem token "access";
          Py.get access "serviceCatalog" (VDict ∅)
  | V3 => tok ← Py.getitem token "token";
          Py.get tok "catalog" (VDict ∅)
  end.

Definition object_bool (c : value) : bool := true.

Definition empty_world : World value := mk_World [] 0.

End Samples.

(** ** More sample payloads *)

Module Fixtures.
Import Samples.

(** Newer schema, scoped to a project, with roles, audit ids, a trust and
    an OAuth subtree. *)
Definition v3_full_token : gmap string value :=
  list_to_map
    [("user", dict [("id", VStr "u1"); ("name", VStr "joe");
                    ("domain", dict [("id", VStr "d1");
                                     ("name", VStr "Default")])]);
     ("project", dict [("id", VStr "p1"); ("name", VStr "demo");
                       ("domain", dict [("id", VStr "d1");
                                        ("name", VStr "Default")])]);
     ("roles", VList [dict [("id", VStr "r1"); ("name", VStr "admin")];
                      dict [("id", VStr "r2"); ("name", VStr "member")]]);
     ("audit_ids", VList [VStr "a1"; VStr "a2"]);
     ("expires_at", VInt 1060000000);
     ("issued_at", VInt 1000000000);
     ("catalog", VList []);
     ("OS-TRUST:trust",
      dict [("id", VStr "t1");
            ("trustee_user", dict [("id", VStr "u1")]);
            ("trustor_user", dict [("id", VStr "u2")])]);
     ("OS-OAUTH1", dict [("access_token_id", VStr "at1");
                         ("consumer_id", VStr "c1")])].

Definition v3_full : value := dict [("token", VDict v3_full_token)].

(** Newer schema, unscoped: a user and nothing else. *)
Definition v3_unscoped_token : gmap string value :=
  list_to_map
    [("user", dict [("id", VStr "u1"); ("name", VStr "joe");
                    ("domain", dict [("id", VStr "d1")])]);
     ("audit_ids", VList [VStr "a1"])].

Definition v3_unscoped : value := dict [("token", VDict v3_unscoped_token)].

(** Newer schema: the second role has no name. *)
Definition v3_role_without_name : value :=
  dict [("token",
         dict [("roles", VList [dict [("id", VStr "r1");
                                      ("name", VStr "admin")];
                                dict [("id", VStr "r2")]])])].

(** Newer schema without a user. *)
Definition v3_no_user : value := dict [("token", dict [])].

(** Older schema with a tenant, user roles and audit ids. *)
Definition v2_scoped_token : gmap string value :=
  list_to_map
    [("id", VStr "abc");
     ("expires", VInt 1060000000);
     ("tenant", dict [("id", VStr "p1"); ("name", VStr "demo")]);
     ("audit_ids", VList [VStr "a1"; VStr "a2"])].

Definition v2_scoped_user : gmap string value :=
  list_to_map
    [("id", VStr "u1"); ("username", VStr "joe");
     ("roles", VList [dict [("name", VStr "admin")]])].

Definition v2_scoped : value :=
  dict [("access", dict [("token", VDict v2_scoped_token);
                         ("user", VDict v2_scoped_user)])].

(** A truthy response carrying a body and a subject token. *)
Definition response (body : value) : Response :=
  mk_Response true (Ok body)
    (fun h => if String.eqb h "X-Subject-Token" then VStr "hdr" else VNone).

(** A builder that always fails, and one whose objects are falsy. *)
Definition failing_from_token (cls : Version) (token : value)
  : result value :=
  Err (ValueError "Invalid token format for fetching catalog").

Definition falsy_bool (c : value) : bool := false.

(** A parser for the samples that also knows aware timestamps: a pair
    [[wall, offset]] of microsecond counts stands for the text of a
    timestamp with a UTC offset. *)
Definition parse_stamp (v : value) : result datetime :=
  match v with
  | VInt n => Ok (mk_datetime n None)
  | VList [VInt n; VInt offset] => Ok (mk_datetime n (Some offset))
  | _ => Err (ValueError "not a timestamp")
  end.

Definition v3_expires_aware (n offset : Z) : value :=
  dict [("token", dict [("expires_at", VList [VInt n; VInt offset])])].

End Fixtures.

(** * Properties *)

(** ** Lookups along a path of dicts *)

Lemma getitem_Some (d : gmap string value) (k : string) (v : value) :
  d !! k = Some v -> Py.getitem (VDict d) k = Ok v.
Proof. intros H. unfold Py.getitem. now rewrite H. Qed.

Lemma getitem_None (d : gmap string value) (k : string) :
  d !! k = None -> Py.getitem (VDict d) k = Err (KeyError k).
Proof. intros H. unfold Py.getitem. now rewrite H. Qed.

Lemma contains_dict (d : gmap string value) (k : string) :
  Py.contains k (VDict d) = Ok (bool_decide (is_Some (d !! k))).
Proof.
  unfold Py.contains. destruct (d !! k) as [v|] eqn:E.
  - rewrite bool_decide_eq_true_2; [reflexivity | eauto].
  - rewrite bool_decide_eq_false_2; [reflexivity | ].
    intros [v Hv]. discriminate.
Qed.

Lemma bind_Ok_r {A} (m : result A) : (m ≫= Ok) = m.
Proof. now destruct m. Qed.

Lemma missingproperty_Ok (v : value) : missingproperty (Ok v) = Ok v.
Proof. reflexivity. Qed.

Lemma missingproperty_KeyError (k : string) :
  missingproperty (Err (KeyError k)) = Ok VNone.
Proof. reflexivity. Qed.

(** The wrapper never lets a [KeyError] through. *)
Lemma missingproperty_no_KeyError (r : result value) :
  is_KeyError (missingproperty r) = false.
Proof. destruct r as [v|[]]; reflexivity. Qed.

(** ** The factory *)

Lemma create_payload (resp : option Response) (body auth_token : value) :
  create resp body auth_token =
  (body' ← payload resp body;
   is_v3 ← Py.contains "token" body';
   if (is_v3 : bool) then
     Ok (new_AccessInfoV3 body' (subject_token resp auth_token))
   else
     is_v2 ← Py.contains "access" body';
     if (is_v2 : bool) then Ok (new_AccessInfoV2 body' auth_token)
     else Err (ValueError "Unrecognized auth response")).
Proof. reflexivity. Qed.

(** C1. For a payload that is a mapping: with the key ["token"] the factory
    builds the newer-schema accessor; without it but with the key
    ["access"] it builds the older-schema accessor; with neither key it
    raises [ValueError('Unrecognized auth response')] and returns no
    accessor. *)
Theorem C1_create_dispatch
    (resp : option Response) (body auth_token : value)
    (d : gmap string value)
    (Hpayload : payload resp body = Ok (VDict d)) :
  (is_Some (d !! "token") ->
     create resp body auth_token =
     Ok (new_AccessInfoV3 (VDict d) (subject_token resp auth_token)))
  /\ (d !! "token" = None -> is_Some (d !! "access") ->
     create resp body auth_token = Ok (new_AccessInfoV2 (VDict d) auth_token))
  /\ (d !! "token" = None -> d !! "access" = None ->
     create resp body auth_token =
     Err (ValueError "Unrecognized auth response")).
Proof.
  rewrite create_payload, Hpayload. cbn [mbind result_bind].
  rewrite !contains_dict. cbn [mbind result_bind].
  repeat split.
  - intros Ht. now rewrite bool_decide_eq_true_2.
  - intros Ht Ha. rewrite Ht.
    rewrite bool_decide_eq_false_2 by (intros [v Hv]; discriminate).
    now rewrite bool_decide_eq_true_2.
  - intros Ht Ha. rewrite Ht, Ha.
    rewrite bool_decide_eq_false_2 by (intros [v Hv]; discriminate).
    reflexivity.
Qed.

(** C10. A payload that carries both ["token"] and ["access"] goes to the
    newer-schema class: the test for ["token"] comes first. *)
Theorem C10_token_takes_precedence
    (resp : option Response) (body auth_token : value)
    (d : gmap string value)
    (Hpayload : payload resp body = Ok (VDict d))
    (Htoken : is_Some (d !! "token"))
    (Haccess : is_Some (d !! "access")) :
  exists acc : AccessInfo.t,
    create resp body auth_token = Ok acc
    /\ AccessInfo.version acc = V3
    /\ AccessInfo._data acc = VDict d.
Proof.
  exists (new_AccessInfoV3 (VDict d) (subject_token resp auth_token)).
  split; [ | split; reflexivity].
  rewrite create_payload, Hpayload. cbn [mbind result_bind].
  rewrite (contains_dict d "token"). cbn [mbind result_bind].
  rewrite (bool_decide_eq_true_2 _ Htoken). reflexivity.
Qed.

(** ** The newer schema: domain of the user *)

Section UserDomain.
Import AccessInfo AccessInfoV3.

Variable self : AccessInfo.t.
Variable user : gmap string value.
Hypothesis Huser : _user self = Ok (VDict user).

Lemma is_federated_marker :
  is_federated self = Ok (bool_decide (is_Some (user !! "OS-FEDERATION"))).
Proof.
  unfold is_federated. rewrite Huser. cbn [mbind result_bind].
  apply contains_dict.
Qed.

Lemma user_domain_lookup_missing (leaf : string) :
  user !! "domain" = None ->
  (user' ← _user self;
   domain ← Py.getitem user' "domain";
   Py.getitem domain leaf) = Err (KeyError "domain").
Proof.
  intros Hdom. rewrite Huser. cbn [mbind result_bind].
  now rewrite (getitem_None _ _ Hdom).
Qed.
End UserDomain.

(** C7. Newer schema, the user mapping has no ["domain"] key:
    [user_domain_id] and [user_domain_name] are [None] when [is_federated]
    is true and re-raise the [KeyError] when it is false; [is_federated]
    is one of the two, decided by the key ["OS-FEDERATION"] of the user. *)
Theorem C7_user_domain_federated
    (self : AccessInfo.t) (user : gmap string value)
    (Huser : AccessInfoV3._user self = Ok (VDict user))
    (Hdomain : user !! "domain" = None) :
  AccessInfoV3.is_federated self
    = Ok (bool_decide (is_Some (user !! "OS-FEDERATION")))
  /\ (AccessInfoV3.is_federated self = Ok true ->
      AccessInfoV3.user_domain_id self = Ok VNone
      /\ AccessInfoV3.user_domain_name self = Ok VNone)
  /\ (AccessInfoV3.is_federated self = Ok false ->
      AccessInfoV3.user_domain_id self = Err (KeyError "domain")
      /\ AccessInfoV3.user_domain_name self = Err (KeyError "domain")).
Proof.
  split; [now apply is_federated_marker | ].
  unfold AccessInfoV3.user_domain_id, AccessInfoV3.user_domain_name.
  rewrite !(user_domain_lookup_missing self user Huser _ Hdomain).
  split; intros Hfed; rewrite Hfed; split; reflexivity.
Qed.

(** ** The newer schema: domain of the project *)

(** The plain property next to it lets the [KeyError] through. *)
Lemma V3_project_domain_name_lookup
    (self : AccessInfo.t) (project : value)
    (Hproject : AccessInfoV3._project self = Ok project) :
  AccessInfoV3.project_domain_name self
  = lookup_path project ["domain"; "name"].
Proof.
  unfold AccessInfoV3.project_domain_name.
  rewrite Hproject. cbn [mbind result_bind lookup_path].
  destruct (Py.getitem project "domain") as [domain|e];
    cbn [mbind result_bind]; [ | reflexivity].
  now rewrite bind_Ok_r.
Qed.

(** C2 (as the code has it). Newer schema, [token.project] present:
    [project_domain_id] is wrapped by [missingproperty]; it is [None], and
    no error, when the path [domain.id] is missing below the project, and
    the value found there otherwise. *)
Theorem C2_project_domain_id_soft
    (self : AccessInfo.t) (project : value)
    (Hproject : AccessInfoV3._project self = Ok project) :
  (path_missing project ["domain"; "id"] ->
     AccessInfoV3.project_domain_id self = Ok VNone)
  /\ (forall v, lookup_path project ["domain"; "id"] = Ok v ->
     AccessInfoV3.project_domain_id self = Ok v).
Proof.
  unfold AccessInfoV3.project_domain_id, path_missing.
  rewrite Hproject. cbn [mbind result_bind lookup_path].
  split.
  - destruct (Py.getitem project "domain") as [domain|e];
      cbn [mbind result_bind].
    + destruct (Py.getitem domain "id") as [v|[]]; cbn; congruence.
    + destruct e; cbn; congruence.
  - intros v.
    destruct (Py.getitem project "domain") as [domain|e];
      cbn [mbind result_bind]; [ | discriminate].
    destruct (Py.getitem domain "id"); cbn; congruence.
Qed.

(** ** The older schema *)

Lemma lookup_path_1 (v : value) (k : string) :
  lookup_path v [k] = Py.getitem v k.
Proof. cbn [lookup_path]. apply bind_Ok_r. Qed.

Lemma lookup_path_cons (v : value) (k : string) (rest : list string) :
  lookup_path v (k :: rest) = (v' ← Py.getitem v k; lookup_path v' rest).
Proof. reflexivity. Qed.

Section OlderSchema.
Import AccessInfo AccessInfoV2.

Variable self : AccessInfo.t.

Lemma V2_token_path :
  _token self = missingproperty (lookup_path (_data self) ["access"; "token"]).
Proof.
  unfold _token. rewrite lookup_path_cons.
  destruct (Py.getitem (_data self) "access") as [access|e];
    cbn [mbind result_bind]; [ | reflexivity].
  now rewrite lookup_path_1.
Qed.

Lemma V2_user_path (k : string) :
  (user ← _user self; Py.getitem user k)
  = lookup_path (_data self) ["access"; "user"; k].
Proof.
  unfold _user. cbn [lookup_path].
  destruct (Py.getitem (_data self) "access") as [access|e];
    cbn [mbind result_bind]; [ | reflexivity].
  destruct (Py.getitem access "user") as [user|e];
    cbn [mbind result_bind]; [ | reflexivity].
  now rewrite bind_Ok_r.
Qed.

Lemma V2_token_id_path :
  (access ← Py.getitem (_data self) "access";
   token ← Py.getitem access "token";
   Py.getitem token "id")
  = lookup_path (_data self) ["access"; "token"; "id"].
Proof.
  cbn [lookup_path].
  destruct (Py.getitem (_data self) "access") as [access|e];
    cbn [mbind result_bind]; [ | reflexivity].
  destruct (Py.getitem access "token") as [token|e];
    cbn [mbind result_bind]; [ | reflexivity].
  now rewrite bind_Ok_r.
Qed.

(** With the trust subtree in place, [trust_scoped] is its truth value. *)
Lemma V2_trust_scoped_present (trust : value) :
  lookup_path (_data self) ["access"; "trust"] = Ok trust ->
  trust_scoped self = Ok (Py.truthy trust).
Proof.
  unfold trust_scoped, _trust. rewrite lookup_path_cons.
  destruct (Py.getitem (_data self) "access") as [access|e];
    cbn [mbind result_bind]; [ | discriminate].
  rewrite lookup_path_1. now intros ->.
Qed.

(** Without it, the [KeyError] of the lookup leaves the property. *)
Lemma V2_trust_scoped_absent :
  path_missing (_data self) ["access"; "trust"] ->
  is_KeyError (trust_scoped self) = true.
Proof.
  unfold path_missing, trust_scoped, _trust. rewrite lookup_path_cons.
  destruct (Py.getitem (_data self) "access") as [access|e];
    cbn [mbind result_bind]; [ | trivial].
  rewrite lookup_path_1.
  now destruct (Py.getitem access "trust").
Qed.

(** [role_ids] raises whatever the payload is. *)
Lemma V2_role_ids_raises : role_ids self = Err AttributeError.
Proof. reflexivity. Qed.

End OlderSchema.

(** The newer-schema sibling of [trust_scoped] catches the [KeyError]. *)
Lemma V3_trust_scoped_absent (self : AccessInfo.t) :
  is_KeyError (AccessInfoV3._trust self) = true ->
  AccessInfoV3.trust_scoped self = Ok false.
Proof.
  unfold AccessInfoV3.trust_scoped.
  destruct (AccessInfoV3._trust self) as [v|[]]; cbn; congruence.
Qed.

Example V2_trust_scoped_sample :
  AccessInfoV2.trust_scoped (new_AccessInfoV2 Samples.v2_trust VNone)
  = Ok true.
Proof.
  exact (V2_trust_scoped_present
           (new_AccessInfoV2 Samples.v2_trust VNone)
           (Samples.dict [("id", VStr "t1"); ("trustee_user_id", VStr "u1")])
           eq_refl).
Qed.

(** C3 (where the code departs from it). An older-schema payload without
    ["trust"] below ["access"]: reading [trust_scoped] raises
    [KeyError('trust')], where a result of [False] is expected. *)
Theorem C3_trust_scoped_absent_raises :
  path_missing Samples.v2_unscoped ["access"; "trust"]
  /\ AccessInfoV2.trust_scoped (new_AccessInfoV2 Samples.v2_unscoped VNone)
     = Err (KeyError "trust").
Proof. split; reflexivity. Qed.

(** C4 (where the code departs from it). An older-schema payload with a
    list at [metadata.roles]: reading [role_ids] raises [AttributeError],
    because the instance has no method [get]. *)
Theorem C4_role_ids_raises :
  lookup_path Samples.v2_unscoped ["access"; "metadata"; "roles"]
    = Ok (VList [VStr "r1"])
  /\ AccessInfoV2.role_ids (new_AccessInfoV2 Samples.v2_unscoped VNone)
     = Err AttributeError.
Proof. split; reflexivity. Qed.

(** C5 (as the code has it). Older schema: [auth_token] is the token
    passed to the constructor when that one is truthy (a string that is
    not empty); otherwise it is the value at [access.token.id], and [None]
    when a key of that path is missing. *)
Theorem C5_auth_token_amended (self : AccessInfo.t) :
  (forall s : string, AccessInfo._auth_token self = VStr s -> s <> "" ->
     AccessInfoV2.auth_token self = Ok (VStr s))
  /\ (Py.truthy (AccessInfo._auth_token self) = true ->
     AccessInfoV2.auth_token self = Ok (AccessInfo._auth_token self))
  /\ (Py.truthy (AccessInfo._auth_token self) = false ->
     (forall v, lookup_path (AccessInfo._data self) ["access"; "token"; "id"]
                = Ok v ->
        AccessInfoV2.auth_token self = Ok v)
     /\ (path_missing (AccessInfo._data self) ["access"; "token"; "id"] ->
        AccessInfoV2.auth_token self = Ok VNone)).
Proof.
  unfold AccessInfoV2.auth_token, AccessInfo.auth_token, Py.or, path_missing.
  cbn [mbind result_bind]. rewrite V2_token_id_path.
  split; [ | split].
  - intros s -> Hs. cbn [Py.truthy].
    destruct (String.eqb_spec s ""); [contradiction | reflexivity].
  - now intros ->.
  - intros ->. split.
    + now intros v ->.
    + destruct (lookup_path _ _) as [v|[]]; cbn; congruence.
Qed.

(** C6 (as the code has it). Older schema, [access.token] a mapping:
    [project_name] is decided by the first key present among
    [token.tenant], [user.tenantName] and [token.tenantId].  With
    [token.tenant] present it is that tenant's [name], [None] if the
    tenant has none; otherwise [user.tenantName]; otherwise
    [token.tenantId]; otherwise [None]. *)
Theorem C6_project_name_amended
    (self : AccessInfo.t) (token : gmap string value)
    (Htoken : lookup_path (AccessInfo._data self) ["access"; "token"]
              = Ok (VDict token)) :
  (forall tenant : gmap string value,
     token !! "tenant" = Some (VDict tenant) ->
     AccessInfoV2.project_name self = Ok (default VNone (tenant !! "name")))
  /\ (token !! "tenant" = None ->
      (forall v,
         lookup_path (AccessInfo._data self) ["access"; "user"; "tenantName"]
         = Ok v ->
         AccessInfoV2.project_name self = Ok v)
      /\ (path_missing (AccessInfo._data self)
            ["access"; "user"; "tenantName"] ->
          (forall v, token !! "tenantId" = Some v ->
             AccessInfoV2.project_name self = Ok v)
          /\ (token !! "tenantId" = None ->
             AccessInfoV2.project_name self = Ok VNone))).
Proof.
  unfold AccessInfoV2.project_name, path_missing.
  rewrite V2_user_path, V2_token_path, Htoken.
  cbn [missingproperty mbind result_bind].
  split.
  - intros tenant Ht. now rewrite (getitem_Some _ _ _ Ht).
  - intros Ht. rewrite (getitem_None _ _ Ht). split.
    + now intros v ->.
    + destruct (lookup_path _ ["access"; "user"; "tenantName"])
        as [u|[]]; try discriminate.
      intros _. split.
      * intros v Hv. now rewrite (getitem_Some _ _ _ Hv).
      * intros Hv. now rewrite (getitem_None _ _ Hv).
Qed.

(** ** The service catalog *)

Section CatalogCache.
Import AccessInfo.

Context {Catalog : Type}.
Variable from_token : Version -> value -> result Catalog.
Variable catalog_bool : Catalog -> bool.

(** A read that finds a truthy object in the cache changes nothing. *)
Lemma service_catalog_hit (self : t) (w : World Catalog) (r : ObjRef) :
  _service_catalog self = Some r ->
  ref_truthy catalog_bool w r = true ->
  service_catalog from_token catalog_bool self w = (Ok r, self, w).
Proof.
  intros Hc Hr. unfold service_catalog. now rewrite Hc, Hr.
Qed.

Lemma service_catalog_calls_hit (n : nat) (self : t) (w : World Catalog)
    (r : ObjRef) :
  _service_catalog self = Some r ->
  ref_truthy catalog_bool w r = true ->
  service_catalog_calls from_token catalog_bool n self w
  = (replicate n (Ok r), self, w).
Proof.
  intros Hc Hr. induction n as [|n IH]; [reflexivity | ].
  cbn [service_catalog_calls replicate].
  now rewrite (service_catalog_hit self w r Hc Hr), IH.
Qed.

(** A read that finds the cache empty calls the builder once, allocates
    its result and stores the reference. *)
Lemma service_catalog_miss (self : t) (w : World Catalog) (c : Catalog) :
  _service_catalog self = None ->
  from_token (version self) (_data self) = Ok c ->
  service_catalog from_token catalog_bool self w
  = (Ok (length (heap w)),
     set_service_catalog self (length (heap w)),
     mk_World (heap w ++ [c]) (S (from_token_calls w))).
Proof.
  intros Hc Hb. unfold service_catalog, build_catalog.
  now rewrite Hc, Hb.
Qed.

Lemma ref_truthy_fresh (w : World Catalog) (c : Catalog) (k : nat) :
  ref_truthy catalog_bool (mk_World (heap w ++ [c]) k) (length (heap w))
  = catalog_bool c.
Proof.
  unfold ref_truthy. cbn [heap].
  rewrite lookup_app_r by reflexivity.
  now rewrite Nat.sub_diag.
Qed.

(** A builder that fails leaves the cache empty: the next read calls it
    again. *)
Lemma service_catalog_builder_fails (self : t) (w : World Catalog)
    (e : exn) :
  _service_catalog self = None ->
  from_token (version self) (_data self) = Err e ->
  service_catalog from_token catalog_bool self w
  = (Err e, self, count_call w).
Proof.
  intros Hc Hb. unfold service_catalog, build_catalog.
  now rewrite Hc, Hb.
Qed.

End CatalogCache.

(** C8. On an instance as the constructor leaves it, with a builder that
    returns a catalog object (truthy, as an object is), any number of
    consecutive reads of [service_catalog] return one and the same
    reference, to the object the builder returned, and the builder is
    called once in all. *)
Theorem C8_service_catalog_built_once
    {Catalog : Type}
    (from_token : Version -> value -> result Catalog)
    (catalog_bool : Catalog -> bool)
    (cls : Version) (body auth_token : value)
    (w : World Catalog) (c : Catalog) (n : nat)
    (Hbuild : from_token cls body = Ok c)
    (Htruthy : catalog_bool c = true) :
  let self := AccessInfo.__init__ cls body auth_token in
  let r : ObjRef := length (heap w) in
  let out := service_catalog_calls from_token catalog_bool (S n) self w in
  out.1.1 = replicate (S n) (Ok r)
  /\ from_token_calls out.2 = S (from_token_calls w)
  /\ heap out.2 !! r = Some c
  /\ AccessInfo._service_catalog out.1.2 = Some r.
Proof.
  intros self r out. subst out r. cbn [service_catalog_calls].
  rewrite (service_catalog_miss from_token catalog_bool self w c)
    by (reflexivity || assumption).
  rewrite (service_catalog_calls_hit from_token catalog_bool n _ _
             (length (heap w)))
    by (reflexivity || (rewrite ref_truthy_fresh; assumption)).
  cbn. repeat split.
  rewrite lookup_app_r by reflexivity.
  now rewrite Nat.sub_diag.
Qed.

(** ** Expiry *)

Lemma normalize_time_datetime (t : datetime) :
  timeutils.normalize_time (VDatetime t)
  = Ok (mk_datetime (utc_instant t) None).
Proof.
  unfold timeutils.normalize_time, utc_instant.
  destruct t as [w [o|]]; reflexivity.
Qed.

Lemma will_expire_soon_datetime
    (parse_isotime : value -> result datetime)
    (self : AccessInfo.t) (now : Z) (stale : option Z) (t : datetime) :
  expires parse_isotime self = Ok (VDatetime t) ->
  will_expire_soon parse_isotime self now stale
  = Ok (utc_instant t
        <? now + seconds (default STALE_TOKEN_DURATION stale)).
Proof.
  intros He. unfold will_expire_soon. rewrite He.
  cbn [mbind result_bind]. rewrite normalize_time_datetime.
  destruct stale; reflexivity.
Qed.

(** C9. When [expires] is a timestamp, [will_expire_soon] with the default
    window answers whether the normalized instant lies strictly before the
    clock reading plus 30 seconds: yes at 10 seconds from now, no at 60. *)
Theorem C9_will_expire_soon_default
    (parse_isotime : value -> result datetime)
    (self : AccessInfo.t) (now : Z) (t : datetime)
    (Hexpires : expires parse_isotime self = Ok (VDatetime t)) :
  will_expire_soon parse_isotime self now None
    = Ok (bool_decide (utc_instant t < now + seconds 30))
  /\ (utc_instant t = now + seconds 10 ->
      will_expire_soon parse_isotime self now None = Ok true)
  /\ (utc_instant t = now + seconds 60 ->
      will_expire_soon parse_isotime self now None = Ok false).
Proof.
  rewrite (will_expire_soon_datetime _ _ _ _ _ Hexpires).
  cbn [default]. unfold STALE_TOKEN_DURATION, seconds.
  repeat split.
  - f_equal. destruct (Z.ltb_spec (utc_instant t) (now + 30 * 1000000)).
    + now rewrite bool_decide_eq_true_2.
    + rewrite bool_decide_eq_false_2; [reflexivity | lia].
  - intros ->. f_equal. apply Z.ltb_lt. lia.
  - intros ->. f_equal. apply Z.ltb_ge. lia.
Qed.

(** * The statements at sample payloads *)

Lemma C1_create_dispatch_witness :
  payload None Samples.v2_unscoped = Ok Samples.v2_unscoped
  /\ create None Samples.v2_unscoped VNone
     = Ok (new_AccessInfoV2 Samples.v2_unscoped VNone).
Proof.
  split; [reflexivity | ].
  destruct (C1_create_dispatch None Samples.v2_unscoped VNone
              (Samples.fields Samples.v2_unscoped) eq_refl)
    as (_ & Hv2 & _).
  apply Hv2; [reflexivity | eexists; reflexivity].
Defined.

Lemma C10_token_takes_precedence_witness :
  exists acc : AccessInfo.t,
    create None Samples.both_keys (VStr "tok") = Ok acc
    /\ AccessInfo.version acc = V3
    /\ AccessInfo._data acc = Samples.both_keys.
Proof.
  apply (C10_token_takes_precedence None Samples.both_keys (VStr "tok")
           (Samples.fields Samples.both_keys) eq_refl);
    eexists; reflexivity.
Defined.

Lemma C7_user_domain_federated_witness :
  AccessInfoV3.user_domain_id (new_AccessInfoV3 Samples.v3_federated VNone)
    = Ok VNone
  /\ AccessInfoV3.user_domain_id
       (new_AccessInfoV3 Samples.v3_not_federated VNone)
     = Err (KeyError "domain").
Proof.
  split.
  - destruct (C7_user_domain_federated
                (new_AccessInfoV3 Samples.v3_federated VNone)
                (list_to_map [("id", VStr "u1"); ("OS-FEDERATION", VDict ∅)])
                eq_refl eq_refl) as (_ & Hfed & _).
    apply Hfed. reflexivity.
  - destruct (C7_user_domain_federated
                (new_AccessInfoV3 Samples.v3_not_federated VNone)
                (list_to_map [("id", VStr "u1")])
                eq_refl eq_refl) as (_ & _ & Hnot).
    apply Hnot. reflexivity.
Defined.

(** C2 in its original wording fails at a project without a domain: [project_domain_id] does
    not raise, and [project_domain_name] is not [None] (it raises). *)
Lemma C2_counterexample :
  let self := new_AccessInfoV3 Samples.v3_project_no_domain VNone in
  is_Ok (AccessInfoV3._project self) = true
  /\ path_missing Samples.v3_project_no_domain
       ["token"; "project"; "domain"; "id"]
  /\ path_missing Samples.v3_project_no_domain
       ["token"; "project"; "domain"; "name"]
  /\ raises (AccessInfoV3.project_domain_id self) = false
  /\ AccessInfoV3.project_domain_name self <> Ok VNone.
Proof. repeat split; try reflexivity. discriminate. Qed.

Lemma C2_project_domain_id_soft_witness :
  let self := new_AccessInfoV3 Samples.v3_project_no_domain VNone in
  AccessInfoV3.project_domain_id self = Ok VNone.
Proof.
  intros self.
  destruct (C2_project_domain_id_soft self
              (Samples.dict [("id", VStr "p1")]) eq_refl)
    as (Hmissing & _).
  apply Hmissing. reflexivity.
Defined.

(** C5 in its original wording fails at a payload with [access.token.id] and no explicit
    token: the path [access.token.token.id] is missing, yet there is no
    error, the result is the value at [access.token.id]; and where that
    path is missing too the result is [None], again without an error. *)
Lemma C5_counterexample :
  path_missing Samples.v2_unscoped ["access"; "token"; "token"; "id"]
  /\ AccessInfoV2.auth_token (new_AccessInfoV2 Samples.v2_unscoped VNone)
     = Ok (VStr "abc")
  /\ path_missing Samples.v2_empty ["access"; "token"; "id"]
  /\ AccessInfoV2.auth_token (new_AccessInfoV2 Samples.v2_empty VNone)
     = Ok VNone.
Proof. repeat split; reflexivity. Qed.

Lemma C5_auth_token_amended_witness :
  AccessInfoV2.auth_token (new_AccessInfoV2 Samples.v2_unscoped (VStr "tok"))
    = Ok (VStr "tok")
  /\ AccessInfoV2.auth_token (new_AccessInfoV2 Samples.v2_unscoped VNone)
     = Ok (VStr "abc")
  /\ AccessInfoV2.auth_token (new_AccessInfoV2 Samples.v2_empty VNone)
     = Ok VNone.
Proof.
  split; [ | split].
  - destruct (C5_auth_token_amended
                (new_AccessInfoV2 Samples.v2_unscoped (VStr "tok")))
      as (Hstr & _ & _).
    apply Hstr; [reflexivity | discriminate].
  - destruct (C5_auth_token_amended
                (new_AccessInfoV2 Samples.v2_unscoped VNone))
      as (_ & _ & Hfalsy).
    destruct (Hfalsy eq_refl) as (Hpath & _).
    apply Hpath. reflexivity.
  - destruct (C5_auth_token_amended
                (new_AccessInfoV2 Samples.v2_empty VNone))
      as (_ & _ & Hfalsy).
    destruct (Hfalsy eq_refl) as (_ & Hmissing).
    apply Hmissing. reflexivity.
Defined.

(** C6 in its original wording fails at a payload whose tenant has no name while the user
    carries [tenantName]: [token.tenant.name] is missing and
    [user.tenantName] is "B", yet [project_name] is [None]. *)
Lemma C6_counterexample :
  let self := new_AccessInfoV2 Samples.v2_tenant_no_name VNone in
  path_missing Samples.v2_tenant_no_name
    ["access"; "token"; "tenant"; "name"]
  /\ lookup_path Samples.v2_tenant_no_name ["access"; "user"; "tenantName"]
     = Ok (VStr "B")
  /\ AccessInfoV2.project_name self = Ok VNone
  /\ AccessInfoV2.project_name self <> Ok (VStr "B").
Proof. repeat split; try reflexivity. discriminate. Qed.

Lemma C6_project_name_amended_witness :
  AccessInfoV2.project_name (new_AccessInfoV2 Samples.v2_tenant_A VNone)
    = Ok (VStr "A")
  /\ AccessInfoV2.project_name
       (new_AccessInfoV2 Samples.v2_tenantName_B VNone)
     = Ok (VStr "B")
  /\ AccessInfoV2.project_name
       (new_AccessInfoV2 Samples.v2_tenantId_X VNone)
     = Ok (VStr "X")
  /\ AccessInfoV2.project_name (new_AccessInfoV2 Samples.v2_unscoped VNone)
     = Ok VNone.
Proof.
  split; [ | split; [ | split]].
  - destruct (C6_project_name_amended
                (new_AccessInfoV2 Samples.v2_tenant_A VNone)
                (list_to_map [("tenant", Samples.dict [("name", VStr "A")])])
                eq_refl) as (Htenant & _).
    exact (Htenant (list_to_map [("name", VStr "A")]) eq_refl).
  - destruct (C6_project_name_amended
                (new_AccessInfoV2 Samples.v2_tenantName_B VNone)
                (list_to_map [("tenantId", VStr "X")])
                eq_refl) as (_ & Hrest).
    destruct (Hrest eq_refl) as (Huser & _).
    apply Huser. reflexivity.
  - destruct (C6_project_name_amended
                (new_AccessInfoV2 Samples.v2_tenantId_X VNone)
                (list_to_map [("tenantId", VStr "X")])
                eq_refl) as (_ & Hrest).
    destruct (Hrest eq_refl) as (_ & Hnouser).
    destruct (Hnouser eq_refl) as (Hid & _).
    apply Hid. reflexivity.
  - destruct (C6_project_name_amended
                (new_AccessInfoV2 Samples.v2_unscoped VNone)
                (list_to_map [("id", VStr "abc");
                              ("expires", VStr "2038-01-18T21:14:07Z")])
                eq_refl) as (_ & Hrest).
    destruct (Hrest eq_refl) as (_ & Hnouser).
    destruct (Hnouser eq_refl) as (_ & Hnone).
    apply Hnone. reflexivity.
Defined.

Lemma C8_service_catalog_built_once_witness :
  let self := new_AccessInfoV2 Samples.v2_unscoped VNone in
  let out := service_catalog_calls Samples.stub_from_token
               Samples.object_bool 3 self Samples.empty_world in
  out.1.1 = [Ok 0%nat; Ok 0%nat; Ok 0%nat]
  /\ from_token_calls out.2 = 1%nat
  /\ heap out.2 !! 0%nat = Some (VDict ∅)
  /\ AccessInfo._service_catalog out.1.2 = Some 0%nat.
Proof.
  exact (C8_service_catalog_built_once Samples.stub_from_token
           Samples.object_bool V2 Samples.v2_unscoped VNone
           Samples.empty_world (VDict ∅) 2 eq_refl eq_refl).
Defined.

Lemma C9_will_expire_soon_default_witness :
  will_expire_soon Samples.parse_micros
    (new_AccessInfoV3 (Samples.v3_expires_at 1010000000) VNone)
    1000000000 None = Ok true
  /\ will_expire_soon Samples.parse_micros
       (new_AccessInfoV3 (Samples.v3_expires_at 1060000000) VNone)
       1000000000 None = Ok false.
Proof.
  split.
  - destruct (C9_will_expire_soon_default Samples.parse_micros
                (new_AccessInfoV3 (Samples.v3_expires_at 1010000000) VNone)
                1000000000 (mk_datetime 1010000000 None) eq_refl)
      as (_ & H10 & _).
    apply H10. reflexivity.
  - destruct (C9_will_expire_soon_default Samples.parse_micros
                (new_AccessInfoV3 (Samples.v3_expires_at 1060000000) VNone)
                1000000000 (mk_datetime 1060000000 None) eq_refl)
      as (_ & _ & H60).
    apply H60. reflexivity.
Defined.

(** * Further properties of the module *)

(** ** The factory, continued *)

Lemma truthy_dict_lookup (d : gmap string value) (k : string) (v : value) :
  d !! k = Some v -> Py.truthy (VDict d) = true.
Proof.
  intros Hk. cbn [Py.truthy].
  destruct (Nat.eqb_spec (size d) 0) as [Hsize|]; [ | reflexivity].
  apply map_size_empty_iff in Hsize. subst d.
  now rewrite lookup_empty in Hk.
Qed.

Lemma contains_dict_absent (d : gmap string value) (k : string) :
  d !! k = None -> Py.contains k (VDict d) = Ok false.
Proof. intros H. cbn [Py.contains]. now rewrite H. Qed.

Lemma contains_dict_present (d : gmap string value) (k : string) :
  is_Some (d !! k) -> Py.contains k (VDict d) = Ok true.
Proof. intros [v H]. cbn [Py.contains]. now rewrite H. Qed.

Lemma subject_token_truthy (resp : option Response) (auth_token : value) :
  Py.truthy auth_token = true -> subject_token resp auth_token = auth_token.
Proof.
  intros Ht. unfold subject_token. destruct resp as [r|]; [ | reflexivity].
  now rewrite Ht, andb_false_r.
Qed.

(** X1. Whatever [create] returns was built from the payload it
    dispatched on: the accessor holds that payload unchanged, its catalog
    cache is empty, and its class is the newer-schema one exactly when
    ["token"] is in the payload (the older-schema one then has ["access"]
    and no ["token"]). *)
Theorem X1_create_result
    (resp : option Response) (body auth_token : value) (acc : AccessInfo.t)
    (Hcreate : create resp body auth_token = Ok acc) :
  exists b : value,
    payload resp body = Ok b
    /\ AccessInfo._data acc = b
    /\ AccessInfo._service_catalog acc = None
    /\ ((AccessInfo.version acc = V3 /\ Py.contains "token" b = Ok true)
        \/ (AccessInfo.version acc = V2
            /\ Py.contains "token" b = Ok false
            /\ Py.contains "access" b = Ok true)).
Proof.
  rewrite create_payload in Hcreate.
  destruct (payload resp body) as [b|e]; [ | discriminate].
  exists b. cbn [mbind result_bind] in Hcreate.
  destruct (Py.contains "token" b) as [[|]|e]; cbn in Hcreate;
    [ | | discriminate].
  - injection Hcreate as <-. repeat split. now left.
  - destruct (Py.contains "access" b) as [[|]|e]; cbn in Hcreate;
      try discriminate.
    injection Hcreate as <-. repeat split. now right.
Qed.

(** X2. The bearer token the factory stores: a truthy token passed by the
    caller is kept whatever the response holds; the older-schema accessor
    and any accessor built without a truthy response get the token as
    passed; only the newer-schema accessor built from a truthy response
    without a token takes the header [X-Subject-Token]. *)
Theorem X2_create_stored_token
    (resp : option Response) (body auth_token : value) (acc : AccessInfo.t)
    (Hcreate : create resp body auth_token = Ok acc) :
  (Py.truthy auth_token = true -> AccessInfo._auth_token acc = auth_token)
  /\ (AccessInfo.version acc = V2 -> AccessInfo._auth_token acc = auth_token)
  /\ (resp = None -> AccessInfo._auth_token acc = auth_token)
  /\ (forall r, resp = Some r -> resp_bool r = false ->
        AccessInfo._auth_token acc = auth_token)
  /\ (forall r, resp = Some r -> resp_bool r = true ->
        Py.truthy auth_token = false -> AccessInfo.version acc = V3 ->
        AccessInfo._auth_token acc = resp_headers_get r "X-Subject-Token").
Proof.
  rewrite create_payload in Hcreate.
  destruct (payload resp body) as [b|e]; [ | discriminate].
  cbn [mbind result_bind] in Hcreate.
  destruct (Py.contains "token" b) as [[|]|e]; cbn in Hcreate;
    [ | | discriminate].
  - injection Hcreate as <-. cbn. repeat split.
    + apply subject_token_truthy.
    + discriminate.
    + now intros ->.
    + intros r -> Hr. cbn. now rewrite Hr.
    + intros r -> Hr Ht _. cbn. now rewrite Hr, Ht.
  - destruct (Py.contains "access" b) as [[|]|e]; cbn in Hcreate;
      try discriminate.
    injection Hcreate as <-. cbn. repeat split; try reflexivity.
    discriminate.
Qed.

(** X3. Factory, then [auth_token]: for a payload with ["token"] the
    property answers with the token the factory stored; for an
    older-schema payload and no truthy token from the caller it answers
    with the value at [access.token.id] of the payload, also when a
    response with a subject-token header was passed. *)
Theorem X3_create_then_auth_token
    (resp : option Response) (body tok : value) (b : gmap string value)
    (Hpayload : payload resp body = Ok (VDict b)) :
  (is_Some (b !! "token") ->
     (create resp body tok ≫= auth_token) = Ok (subject_token resp tok))
  /\ (b !! "token" = None -> is_Some (b !! "access") ->
      Py.truthy tok = false ->
      forall v, lookup_path (VDict b) ["access"; "token"; "id"] = Ok v ->
      (create resp body tok ≫= auth_token) = Ok v).
Proof.
  rewrite create_payload, Hpayload. cbn [mbind result_bind]. split.
  - intros Ht. rewrite (contains_dict_present _ _ Ht). reflexivity.
  - intros Ht Ha Htok v Hv.
    rewrite (contains_dict_absent _ _ Ht), (contains_dict_present _ _ Ha).
    cbn [mbind result_bind]. unfold auth_token.
    cbn [AccessInfo.version new_AccessInfoV2 AccessInfo.__init__].
    unfold AccessInfoV2.auth_token, AccessInfo.auth_token, Py.or.
    cbn [mbind result_bind AccessInfo._auth_token AccessInfo.__init__
         new_AccessInfoV2].
    rewrite Htok, V2_token_id_path.
    cbn [AccessInfo._data AccessInfo.__init__ new_AccessInfoV2].
    now rewrite Hv.
Qed.

(** X4. [resp.json()] is consulted only when the response is truthy and
    the body passed is falsy: otherwise the outcome does not depend on
    it, and when it is consulted and raises, [create] raises the same. *)
Theorem X4_create_reads_json_only_without_body
    (r : Response) (body auth_token : value) :
  (Py.truthy body = true \/ resp_bool r = false ->
     forall j : result value,
       create (Some r) body auth_token
       = create (Some (mk_Response (resp_bool r) j (resp_headers_get r)))
           body auth_token)
  /\ (resp_bool r = true -> Py.truthy body = false ->
      forall e, resp_json r = Err e ->
        create (Some r) body auth_token = Err e).
Proof.
  split.
  - intros Hcase j. unfold create. cbn [resp_bool resp_json resp_headers_get].
    destruct Hcase as [Hb|Hr].
    + now rewrite Hb, !andb_false_r.
    + now rewrite Hr.
  - intros Hr Hb e He. unfold create. now rewrite Hr, Hb, He.
Qed.

(** X5. A payload that is no container (None, a boolean, a number, a
    timestamp) makes the key test itself fail: [create] raises
    [TypeError], not the [ValueError] of an unrecognized response.  The
    call with all arguments left at [None] is such a case. *)
Theorem X5_create_not_a_container
    (resp : option Response) (body auth_token b : value)
    (Hpayload : payload resp body = Ok b)
    (Hkind : match b with
             | VDict _ | VList _ | VStr _ => False
             | _ => True
             end) :
  create resp body auth_token = Err TypeError.
Proof.
  rewrite create_payload, Hpayload. cbn [mbind result_bind].
  destruct b; try contradiction; reflexivity.
Qed.

(** ** The older schema, continued *)

Lemma V2_token_present (self : AccessInfo.t) (token : value) :
  lookup_path (AccessInfo._data self) ["access"; "token"] = Ok token ->
  AccessInfoV2._token self = Ok token.
Proof.
  intros H. rewrite V2_token_path, H.
  reflexivity.
Qed.

Lemma V2_token_missing (self : AccessInfo.t) :
  path_missing (AccessInfo._data self) ["access"; "token"] ->
  AccessInfoV2._token self = Ok VNone.
Proof.
  unfold path_missing. rewrite V2_token_path.
  destruct (lookup_path _ _) as [v|[]]; cbn; congruence.
Qed.

Lemma V2_user_present (self : AccessInfo.t) (user : value) :
  lookup_path (AccessInfo._data self) ["access"; "user"] = Ok user ->
  AccessInfoV2._user self = Ok user.
Proof.
  unfold AccessInfoV2._user. cbn [lookup_path].
  destruct (Py.getitem (AccessInfo._data self) "access") as [access|e];
    cbn [mbind result_bind]; [ | discriminate].
  now rewrite bind_Ok_r.
Qed.

Lemma V2_user_missing (self : AccessInfo.t) :
  path_missing (AccessInfo._data self) ["access"; "user"] ->
  is_KeyError (AccessInfoV2._user self) = true.
Proof.
  unfold path_missing, AccessInfoV2._user. cbn [lookup_path].
  destruct (Py.getitem (AccessInfo._data self) "access") as [access|e];
    cbn [mbind result_bind]; [ | trivial].
  now rewrite bind_Ok_r.
Qed.

(** X6. Older schema, [access.token] a mapping: [project_id] falls back
    in the same order as [project_name].  With [token.tenant] present it
    is that tenant's [id] ([None] if the tenant has none, without looking
    further); otherwise [user.tenantId]; otherwise [token.tenantId];
    otherwise [None]. *)
Theorem X6_V2_project_id_fallback
    (self : AccessInfo.t) (token : gmap string value)
    (Htoken : lookup_path (AccessInfo._data self) ["access"; "token"]
              = Ok (VDict token)) :
  (forall tenant : gmap string value,
     token !! "tenant" = Some (VDict tenant) ->
     AccessInfoV2.project_id self = Ok (default VNone (tenant !! "id")))
  /\ (token !! "tenant" = None ->
      (forall v,
         lookup_path (AccessInfo._data self) ["access"; "user"; "tenantId"]
         = Ok v ->
         AccessInfoV2.project_id self = Ok v)
      /\ (path_missing (AccessInfo._data self)
            ["access"; "user"; "tenantId"] ->
          AccessInfoV2.project_id self
          = Ok (default VNone (token !! "tenantId")))).
Proof.
  unfold AccessInfoV2.project_id, path_missing.
  rewrite V2_user_path, (V2_token_present _ _ Htoken).
  cbn [mbind result_bind].
  split.
  - intros tenant Ht. now rewrite (getitem_Some _ _ _ Ht).
  - intros Ht. rewrite (getitem_None _ _ Ht). split.
    + now intros v ->.
    + destruct (lookup_path _ ["access"; "user"; "tenantId"])
        as [u|[]]; try discriminate.
      intros _. unfold Py.getitem.
      now destruct (token !! "tenantId").
Qed.

(** X7. Older schema: [username] is [user.name] when that is truthy,
    otherwise [user.username] ([None] when that is missing too); and it
    is [None], not an error, when the payload has no [access.user]. *)
Theorem X7_V2_username_fallback (self : AccessInfo.t) :
  (forall user : gmap string value,
     lookup_path (AccessInfo._data self) ["access"; "user"]
     = Ok (VDict user) ->
     AccessInfoV2.username self
     = Ok (if Py.truthy (default VNone (user !! "name"))
           then default VNone (user !! "name")
           else default VNone (user !! "username")))
  /\ (path_missing (AccessInfo._data self) ["access"; "user"] ->
      AccessInfoV2.username self = Ok VNone).
Proof.
  unfold AccessInfoV2.username. split.
  - intros user Hu. rewrite (V2_user_present _ _ Hu).
    cbn [mbind result_bind Py.get]. unfold Py.or.
    now destruct (Py.truthy (default VNone (user !! "name"))).
  - intros Hu. apply V2_user_missing in Hu.
    destruct (AccessInfoV2._user self) as [v|[]]; try discriminate.
    reflexivity.
Qed.

(** X8. Older schema, a payload without [access.token]: the private
    [_token] is [None], and the accessors that go through it do not
    answer [None] but raise - [TypeError] from the subscript in [issued],
    [project_name], [project_id] and from the key test in
    [project_scoped], [AttributeError] from [.get] in [expires],
    [audit_id] and [audit_chain_id]. *)
Theorem X8_V2_without_token
    (parse_isotime : value -> result datetime) (self : AccessInfo.t)
    (Hmissing : path_missing (AccessInfo._data self) ["access"; "token"]) :
  AccessInfoV2._token self = Ok VNone
  /\ AccessInfoV2.issued self = Err TypeError
  /\ AccessInfoV2.project_name self = Err TypeError
  /\ AccessInfoV2.project_id self = Err TypeError
  /\ AccessInfoV2.project_scoped self = Err TypeError
  /\ AccessInfoV2.expires parse_isotime self = Err AttributeError
  /\ AccessInfoV2.audit_id self = Err AttributeError
  /\ AccessInfoV2.audit_chain_id self = Err AttributeError.
Proof.
  pose proof (V2_token_missing self Hmissing) as Ht.
  unfold AccessInfoV2.issued, AccessInfoV2.project_name,
    AccessInfoV2.project_id, AccessInfoV2.project_scoped,
    AccessInfoV2.expires, AccessInfoV2.audit_id,
    AccessInfoV2.audit_chain_id.
  rewrite Ht. repeat split; reflexivity.
Qed.

(** ** Roles *)

Lemma mapM_getitem_dicts (k : string) (ds : list (gmap string value)) :
  mapM (fun r => Py.getitem r k) (VDict <$> ds)
  = match mapM (fun d : gmap string value => d !! k) ds with
    | Some xs => Ok xs
    | None => Err (KeyError k)
    end.
Proof.
  induction ds as [|d ds IH]; [reflexivity | ].
  cbn [fmap list_fmap mapM mbind result_bind option_bind Py.getitem].
  destruct (d !! k) as [x|]; cbn; [ | reflexivity].
  fold (@fmap list _ _ _ VDict ds). rewrite IH.
  now destruct (mapM _ ds).
Qed.

Lemma getitem_each_dicts (k : string) (ds : list (gmap string value)) :
  missingproperty (Py.getitem_each k (VList (VDict <$> ds)))
  = Ok (match mapM (fun d : gmap string value => d !! k) ds with
        | Some xs => VList xs
        | None => VNone
        end).
Proof.
  unfold Py.getitem_each. cbn [Py.iter mbind result_bind].
  rewrite mapM_getitem_dicts.
  now destruct (mapM _ ds).
Qed.

(** X9. Newer schema, [token.roles] a list of mappings: [role_ids] is the
    list of their [id]s and [role_names] the list of their [name]s, in
    the order of the roles and one per role; if any role lacks the key,
    the whole property is [None], not a shorter list.  Without
    [token.roles] both are the empty list. *)
Theorem X9_V3_roles
    (self : AccessInfo.t) (token : gmap string value)
    (Htoken : Py.getitem (AccessInfo._data self) "token" = Ok (VDict token)) :
  (token !! "roles" = None ->
     AccessInfoV3.role_ids self = Ok (VList [])
     /\ AccessInfoV3.role_names self = Ok (VList []))
  /\ (forall roles : list (gmap string value),
        token !! "roles" = Some (VList (VDict <$> roles)) ->
        AccessInfoV3.role_ids self
        = Ok (match mapM (fun d : gmap string value => d !! "id") roles with
              | Some ids => VList ids
              | None => VNone
              end)
        /\ AccessInfoV3.role_names self
           = Ok (match mapM (fun d : gmap string value => d !! "name") roles
                 with
                 | Some names => VList names
                 | None => VNone
                 end)
        /\ (forall ids names,
              AccessInfoV3.role_ids self = Ok (VList ids) ->
              AccessInfoV3.role_names self = Ok (VList names) ->
              length ids = length roles /\ length names = length roles)).
Proof.
  unfold AccessInfoV3.role_ids, AccessInfoV3.role_names.
  rewrite Htoken. cbn [mbind result_bind Py.get]. split.
  - intros ->. split; reflexivity.
  - intros roles ->. cbn [default from_option id mbind result_bind].
    rewrite !getitem_each_dicts.
    split; [reflexivity | split; [reflexivity | ]].
    intros ids names Hids Hnames.
    destruct (mapM (fun d : gmap string value => d !! "id") roles)
      as [xs|] eqn:Ei; [ | discriminate].
    destruct (mapM (fun d : gmap string value => d !! "name") roles)
      as [ys|] eqn:En; [ | discriminate].
    injection Hids as <-. injection Hnames as <-.
    split; symmetry; eapply length_mapM; eassumption.
Qed.

(** X10. Older schema: [role_names] lists the [name] of each entry of
    [user.roles], is the empty list when the user has no [roles], and is
    [None] when an entry has no [name] or when the payload has no
    [access.user]. *)
Theorem X10_V2_role_names (self : AccessInfo.t) :
  (forall user : gmap string value,
     lookup_path (AccessInfo._data self) ["access"; "user"]
     = Ok (VDict user) ->
     (user !! "roles" = None ->
        AccessInfoV2.role_names self = Ok (VList []))
     /\ (forall roles : list (gmap string value),
           user !! "roles" = Some (VList (VDict <$> roles)) ->
           AccessInfoV2.role_names self
           = Ok (match mapM (fun d : gmap string value => d !! "name") roles
                 with
                 | Some names => VList names
                 | None => VNone
                 end)))
  /\ (path_missing (AccessInfo._data self) ["access"; "user"] ->
      AccessInfoV2.role_names self = Ok VNone).
Proof.
  unfold AccessInfoV2.role_names. split.
  - intros user Hu. rewrite (V2_user_present _ _ Hu).
    cbn [mbind result_bind Py.get]. split.
    + now intros ->.
    + intros roles ->. cbn [default from_option id mbind result_bind].
      apply getitem_each_dicts.
  - intros Hu. apply V2_user_missing in Hu.
    destruct (AccessInfoV2._user self) as [v|[]]; try discriminate.
    reflexivity.
Qed.

(** ** Audit ids *)

Lemma token_subtree (self : AccessInfo.t) (token : value) :
  lookup_path (AccessInfo._data self) (token_path (AccessInfo.version self))
  = Ok token ->
  match AccessInfo.version self with
  | V2 => AccessInfoV2._token self = Ok token
  | V3 => Py.getitem (AccessInfo._data self) "token" = Ok token
  end.
Proof.
  destruct (AccessInfo.version self); cbn [token_path].
  - apply V2_token_present.
  - now rewrite lookup_path_1.
Qed.

Lemma getindex_list (l : list value) (i : nat) :
  match Py.getindex (VList l) i with
  | Err e => if Py.is_IndexError e then Ok VNone else Err e
  | r => r
  end = Ok (default VNone (l !! i)).
Proof. cbn [Py.getindex]. now destruct (l !! i). Qed.

(** X11. In both schemas, with the token subtree a mapping: [audit_id] is
    the first and [audit_chain_id] the second element of the list
    [audit_ids], [None] where the list is too short, and both are [None]
    when the token has no [audit_ids]. *)
Theorem X11_audit_ids
    (self : AccessInfo.t) (token : gmap string value)
    (Htoken : lookup_path (AccessInfo._data self)
                (token_path (AccessInfo.version self))
              = Ok (VDict token)) :
  (forall ids : list value,
     token !! "audit_ids" = Some (VList ids) ->
     audit_id self = Ok (default VNone (ids !! 0%nat))
     /\ audit_chain_id self = Ok (default VNone (ids !! 1%nat)))
  /\ (token !! "audit_ids" = None ->
      audit_id self = Ok VNone /\ audit_chain_id self = Ok VNone).
Proof.
  apply token_subtree in Htoken.
  unfold audit_id, audit_chain_id.
  destruct (AccessInfo.version self).
  - unfold AccessInfoV2.audit_id, AccessInfoV2.audit_chain_id.
    rewrite Htoken. cbn [mbind result_bind Py.get]. split.
    + intros ids ->. cbn [default from_option id].
      now rewrite !getindex_list.
    + intros ->. split; reflexivity.
  - unfold AccessInfoV3.audit_id, AccessInfoV3.audit_chain_id.
    rewrite Htoken. cbn [mbind result_bind]. split.
    + intros ids Hids. rewrite (getitem_Some _ _ _ Hids).
      cbn [mbind result_bind]. now rewrite !getindex_list.
    + intros Hids. rewrite (getitem_None _ _ Hids). split; reflexivity.
Qed.

(** X12. In both schemas, with the token subtree a mapping and
    [audit_ids] a list: [initial_audit_id] is the second audit id when
    there is one and it is truthy, and the first one otherwise ([None]
    for an empty list).  A list of one id gives that id, a list of two
    non-empty strings gives the second. *)
Theorem X12_initial_audit_id
    (self : AccessInfo.t) (token : gmap string value) (ids : list value)
    (Htoken : lookup_path (AccessInfo._data self)
                (token_path (AccessInfo.version self))
              = Ok (VDict token))
    (Hids : token !! "audit_ids" = Some (VList ids)) :
  initial_audit_id self
  = Ok (if Py.truthy (default VNone (ids !! 1%nat))
        then default VNone (ids !! 1%nat)
        else default VNone (ids !! 0%nat))
  /\ (forall a, ids = [a] -> initial_audit_id self = Ok a)
  /\ (forall a c, ids = [VStr a; VStr c] -> c <> "" ->
        initial_audit_id self = Ok (VStr c)).
Proof.
  assert (Hgen : initial_audit_id self
                 = Ok (if Py.truthy (default VNone (ids !! 1%nat))
                       then default VNone (ids !! 1%nat)
                       else default VNone (ids !! 0%nat))).
  { apply token_subtree in Htoken.
    unfold initial_audit_id, audit_id, audit_chain_id.
    destruct (AccessInfo.version self).
    - unfold AccessInfoV2.audit_id, AccessInfoV2.audit_chain_id.
      rewrite Htoken. cbn [mbind result_bind Py.get]. rewrite Hids.
      cbn [default from_option id]. rewrite !getindex_list.
      cbn [mbind result_bind]. unfold Py.or.
      now destruct (Py.truthy _).
    - unfold AccessInfoV3.audit_id, AccessInfoV3.audit_chain_id.
      rewrite Htoken. cbn [mbind result_bind].
      rewrite (getitem_Some _ _ _ Hids). cbn [mbind result_bind].
      rewrite !getindex_list.
      cbn [mbind result_bind missingproperty]. unfold Py.or.
      now destruct (Py.truthy _). }
  split; [exact Hgen | split].
  - intros a ->. rewrite Hgen. reflexivity.
  - intros a c -> Hc. rewrite Hgen. cbn.
    now destruct (String.eqb_spec c "").
Qed.

(** ** The newer schema, continued *)

(** X13. Newer schema, [token] a mapping: with [token.domain] a mapping,
    [domain_name] and [domain_id] are its [name] and [id] ([None] where
    the key is missing); without [token.domain] they are not [None] but
    raise [TypeError] (the private [_domain] is [None] and is
    subscripted), while [domain_scoped] is false. *)
Theorem X13_V3_domain
    (self : AccessInfo.t) (token : gmap string value)
    (Htoken : Py.getitem (AccessInfo._data self) "token" = Ok (VDict token)) :
  (forall domain : gmap string value,
     token !! "domain" = Some (VDict domain) ->
     AccessInfoV3.domain_name self = Ok (default VNone (domain !! "name"))
     /\ AccessInfoV3.domain_id self = Ok (default VNone (domain !! "id"))
     /\ AccessInfoV3.domain_scoped self = Ok (Py.truthy (VDict domain)))
  /\ (token !! "domain" = None ->
      AccessInfoV3.domain_name self = Err TypeError
      /\ AccessInfoV3.domain_id self = Err TypeError
      /\ AccessInfoV3.domain_scoped self = Ok false).
Proof.
  unfold AccessInfoV3.domain_name, AccessInfoV3.domain_id,
    AccessInfoV3.domain_scoped, AccessInfoV3._domain.
  rewrite Htoken. cbn [mbind result_bind]. split.
  - intros domain Hd. rewrite (getitem_Some _ _ _ Hd).
    cbn [missingproperty mbind result_bind]. unfold Py.getitem.
    repeat split.
    + now destruct (domain !! "name").
    + now destruct (domain !! "id").
  - intros Hd. rewrite (getitem_None _ _ Hd). repeat split.
Qed.

(** X14. Newer schema, the payload a mapping: [project_scoped],
    [domain_scoped] and [trust_scoped] are the truth values of
    [token.project], [token.domain] and [token.OS-TRUST:trust], a missing
    key (or a missing [token]) counting as false.  Only [KeyError] is
    absorbed: a [token] that is a list makes them raise [TypeError]. *)
Theorem X14_V3_scope_flags
    (self : AccessInfo.t) (body : gmap string value)
    (Hbody : AccessInfo._data self = VDict body) :
  (body !! "token" = None ->
     AccessInfoV3.project_scoped self = Ok false
     /\ AccessInfoV3.domain_scoped self = Ok false
     /\ AccessInfoV3.trust_scoped self = Ok false)
  /\ (forall token : gmap string value,
        body !! "token" = Some (VDict token) ->
        AccessInfoV3.project_scoped self
        = Ok (Py.truthy (default VNone (token !! "project")))
        /\ AccessInfoV3.domain_scoped self
           = Ok (Py.truthy (default VNone (token !! "domain")))
        /\ AccessInfoV3.trust_scoped self
           = Ok (Py.truthy (default VNone (token !! "OS-TRUST:trust"))))
  /\ (forall l : list value,
        body !! "token" = Some (VList l) ->
        AccessInfoV3.project_scoped self = Err TypeError
        /\ AccessInfoV3.domain_scoped self = Err TypeError
        /\ AccessInfoV3.trust_scoped self = Err TypeError).
Proof.
  unfold AccessInfoV3.project_scoped, AccessInfoV3.domain_scoped,
    AccessInfoV3.trust_scoped, AccessInfoV3._project, AccessInfoV3._domain,
    AccessInfoV3._trust.
  rewrite Hbody. split; [ | split].
  - intros Ht. rewrite (getitem_None _ _ Ht). repeat split.
  - intros token Ht. rewrite (getitem_Some _ _ _ Ht).
    cbn [mbind result_bind]. unfold Py.getitem.
    destruct (token !! "project"), (token !! "domain"),
      (token !! "OS-TRUST:trust"); repeat split.
  - intros l Ht. rewrite (getitem_Some _ _ _ Ht). repeat split.
Qed.

(** X15. [scoped], with the token subtree a mapping: for the older schema
    it says whether the token has the key [tenant]; for the newer schema
    whether [token.project] or [token.domain] is truthy. *)
Theorem X15_scoped
    (self : AccessInfo.t) (token : gmap string value)
    (Htoken : lookup_path (AccessInfo._data self)
                (token_path (AccessInfo.version self))
              = Ok (VDict token)) :
  scoped self
  = Ok (match AccessInfo.version self with
        | V2 => bool_decide (is_Some (token !! "tenant"))
        | V3 => Py.truthy (default VNone (token !! "project"))
                || Py.truthy (default VNone (token !! "domain"))
        end).
Proof.
  apply token_subtree in Htoken.
  unfold scoped, project_scoped, domain_scoped.
  destruct (AccessInfo.version self).
  - unfold AccessInfoV2.project_scoped, AccessInfoV2.domain_scoped.
    rewrite Htoken. cbn [mbind result_bind]. rewrite contains_dict.
    cbn [mbind result_bind]. now destruct (bool_decide _).
  - unfold AccessInfoV3.project_scoped, AccessInfoV3.domain_scoped,
      AccessInfoV3._project, AccessInfoV3._domain.
    rewrite Htoken. cbn [mbind result_bind]. unfold Py.getitem.
    destruct (token !! "project") as [p|], (token !! "domain") as [d|];
      cbn; try reflexivity;
      destruct (Py.truthy p); reflexivity.
Qed.

(** X16. Newer schema, [token] a mapping: where an optional subtree is
    missing, every accessor wrapped by [missingproperty] that reads it
    is [None] and the matching flag is false - for [token.project]
    ([project_id], [project_name], [project_domain_id]), for
    [token.OS-TRUST:trust] ([trust_id], [trustee_user_id],
    [trustor_user_id]) and for [token.OS-OAUTH1] (the two OAuth ids). *)
Theorem X16_V3_absent_subtrees
    (self : AccessInfo.t) (token : gmap string value)
    (Htoken : Py.getitem (AccessInfo._data self) "token" = Ok (VDict token)) :
  (token !! "project" = None ->
     AccessInfoV3.project_scoped self = Ok false
     /\ AccessInfoV3.project_id self = Ok VNone
     /\ AccessInfoV3.project_name self = Ok VNone
     /\ AccessInfoV3.project_domain_id self = Ok VNone)
  /\ (token !! "OS-TRUST:trust" = None ->
      AccessInfoV3.trust_scoped self = Ok false
      /\ AccessInfoV3.trust_id self = Ok VNone
      /\ AccessInfoV3.trustee_user_id self = Ok VNone
      /\ AccessInfoV3.trustor_user_id self = Ok VNone)
  /\ (token !! "OS-OAUTH1" = None ->
      AccessInfoV3.oauth_access_token_id self = Ok VNone
      /\ AccessInfoV3.oauth_consumer_id self = Ok VNone).
Proof.
  unfold AccessInfoV3.project_scoped, AccessInfoV3.project_id,
    AccessInfoV3.project_name, AccessInfoV3.project_domain_id,
    AccessInfoV3.trust_scoped, AccessInfoV3.trust_id,
    AccessInfoV3.trustee_user_id, AccessInfoV3.trustor_user_id,
    AccessInfoV3.oauth_access_token_id, AccessInfoV3.oauth_consumer_id,
    AccessInfoV3._project, AccessInfoV3._trust, AccessInfoV3._oauth.
  rewrite Htoken. cbn [mbind result_bind].
  split; [ | split]; intros H; rewrite (getitem_None _ _ H); repeat split.
Qed.

(** X17. Newer schema, [token] a mapping without [user]: the plain
    properties [is_federated], [user_domain_id] and [user_domain_name]
    raise [KeyError('user')] (the federation test inside the handler
    fails the same way), while [user_id] and [username] are [None]. *)
Theorem X17_V3_without_user
    (self : AccessInfo.t) (token : gmap string value)
    (Htoken : Py.getitem (AccessInfo._data self) "token" = Ok (VDict token))
    (Huser : token !! "user" = None) :
  AccessInfoV3.is_federated self = Err (KeyError "user")
  /\ AccessInfoV3.user_domain_id self = Err (KeyError "user")
  /\ AccessInfoV3.user_domain_name self = Err (KeyError "user")
  /\ AccessInfoV3.user_id self = Ok VNone
  /\ AccessInfoV3.username self = Ok VNone.
Proof.
  unfold AccessInfoV3.user_domain_id, AccessInfoV3.user_domain_name,
    AccessInfoV3.is_federated, AccessInfoV3.user_id, AccessInfoV3.username,
    AccessInfoV3._user.
  rewrite Htoken. cbn [mbind result_bind].
  rewrite (getitem_None _ _ Huser). repeat split.
Qed.

(** X18. Newer schema, the user has a [domain] mapping: [user_domain_id]
    is its [id] whether the user is federated or not; when the domain
    has no [id], it is [None] for a federated user and [KeyError('id')]
    otherwise. *)
Theorem X18_V3_user_domain_present
    (self : AccessInfo.t) (user domain : gmap string value)
    (Huser : AccessInfoV3._user self = Ok (VDict user))
    (Hdomain : user !! "domain" = Some (VDict domain)) :
  (forall v, domain !! "id" = Some v ->
     AccessInfoV3.user_domain_id self = Ok v)
  /\ (domain !! "id" = None ->
      AccessInfoV3.user_domain_id self
      = if bool_decide (is_Some (user !! "OS-FEDERATION"))
        then Ok VNone else Err (KeyError "id")).
Proof.
  unfold AccessInfoV3.user_domain_id.
  rewrite (is_federated_marker self user Huser), Huser.
  cbn [mbind result_bind]. rewrite (getitem_Some _ _ _ Hdomain).
  cbn [mbind result_bind]. split.
  - intros v Hv. now rewrite (getitem_Some _ _ _ Hv).
  - intros Hv. rewrite (getitem_None _ _ Hv).
    now destruct (bool_decide _).
Qed.

(** ** Expiry, continued *)

(** X19. [will_expire_soon] is monotone: once it answers true it still
    does for a later clock reading and for a wider window. *)
Theorem X19_will_expire_soon_monotone
    (parse_isotime : value -> result datetime)
    (self : AccessInfo.t) (t : datetime) (now now' s s' : Z)
    (Hexpires : expires parse_isotime self = Ok (VDatetime t))
    (Hnow : now <= now') (Hs : s <= s')
    (Hsoon : will_expire_soon parse_isotime self now (Some s) = Ok true) :
  will_expire_soon parse_isotime self now' (Some s') = Ok true.
Proof.
  rewrite (will_expire_soon_datetime _ _ now (Some s) _ Hexpires) in Hsoon.
  rewrite (will_expire_soon_datetime _ _ now' (Some s') _ Hexpires).
  cbn [default from_option id] in *. unfold seconds in *.
  injection Hsoon as Hlt. f_equal.
  apply Z.ltb_lt in Hlt. apply Z.ltb_lt. lia.
Qed.

(** X20. The window argument: leaving it out is the same as passing 30
    seconds, on every accessor; a window of 0 is taken as given, not
    replaced by the default, so a token that expires within the next 30
    seconds is stale by default and not stale for a window of 0. *)
Theorem X20_will_expire_soon_window
    (parse_isotime : value -> result datetime)
    (self : AccessInfo.t) (now : Z) :
  will_expire_soon parse_isotime self now None
  = will_expire_soon parse_isotime self now (Some 30)
  /\ (forall t : datetime,
        expires parse_isotime self = Ok (VDatetime t) ->
        will_expire_soon parse_isotime self now (Some 0)
        = Ok (bool_decide (utc_instant t < now))
        /\ (now <= utc_instant t < now + seconds 30 ->
            will_expire_soon parse_isotime self now None = Ok true
            /\ will_expire_soon parse_isotime self now (Some 0)
               = Ok false)).
Proof.
  split; [reflexivity | ].
  intros t He. rewrite !(will_expire_soon_datetime _ _ _ _ _ He).
  cbn [default from_option id]. unfold STALE_TOKEN_DURATION, seconds.
  rewrite Z.add_0_r. split.
  - f_equal. destruct (Z.ltb_spec (utc_instant t) now).
    + now rewrite bool_decide_eq_true_2.
    + rewrite bool_decide_eq_false_2; [reflexivity | lia].
  - intros [Hlo Hhi]. split; f_equal.
    + apply Z.ltb_lt. lia.
    + apply Z.ltb_ge. lia.
Qed.

(** X21. [will_expire_soon] depends on the timestamp only through the
    instant it denotes: an aware timestamp and the naive UTC timestamp of
    the same instant get the same answer, whatever the accessor. *)
Theorem X21_will_expire_soon_time_zone
    (parse_isotime : value -> result datetime)
    (self1 self2 : AccessInfo.t) (t1 t2 : datetime)
    (now : Z) (stale : option Z)
    (H1 : expires parse_isotime self1 = Ok (VDatetime t1))
    (H2 : expires parse_isotime self2 = Ok (VDatetime t2))
    (Hsame : utc_instant t1 = utc_instant t2) :
  will_expire_soon parse_isotime self1 now stale
  = will_expire_soon parse_isotime self2 now stale.
Proof.
  rewrite (will_expire_soon_datetime _ _ _ _ _ H1).
  rewrite (will_expire_soon_datetime _ _ _ _ _ H2).
  now rewrite Hsame.
Qed.

(** X22. Newer schema, [token] a mapping without [expires_at]: [expires]
    is [None] and [will_expire_soon] then raises [AttributeError] for
    every clock reading and window; what [expires] raises,
    [will_expire_soon] raises too. *)
Theorem X22_will_expire_soon_without_expiry
    (parse_isotime : value -> result datetime)
    (self : AccessInfo.t) (now : Z) (stale : option Z) :
  (forall token : gmap string value,
     AccessInfo.version self = V3 ->
     Py.getitem (AccessInfo._data self) "token" = Ok (VDict token) ->
     token !! "expires_at" = None ->
     expires parse_isotime self = Ok VNone
     /\ will_expire_soon parse_isotime self now stale = Err AttributeError)
  /\ (forall e, expires parse_isotime self = Err e ->
        will_expire_soon parse_isotime self now stale = Err e).
Proof.
  split.
  - intros token Hv Ht He.
    assert (Hexp : expires parse_isotime self = Ok VNone).
    { unfold expires. rewrite Hv. unfold AccessInfoV3.expires.
      rewrite Ht. cbn [mbind result_bind].
      now rewrite (getitem_None _ _ He). }
    split; [exact Hexp | ].
    unfold will_expire_soon. now rewrite Hexp.
  - intros e He. unfold will_expire_soon. now rewrite He.
Qed.

(** ** The service catalog, continued *)

Section CatalogReads.
Import AccessInfo.

Context {Catalog : Type}.
Variable from_token : Version -> value -> result Catalog.
Variable catalog_bool : Catalog -> bool.

Lemma service_catalog_rebuild (self : t) (w : World Catalog) :
  cache_unusable catalog_bool self w ->
  service_catalog from_token catalog_bool self w = build_catalog from_token self w.
Proof.
  unfold cache_unusable, service_catalog.
  destruct (_service_catalog self) as [r|]; [ | reflexivity].
  now intros ->.
Qed.

Lemma calls_builder_fails (n : nat) (self : t) (w : World Catalog) (e : exn) :
  cache_unusable catalog_bool self w ->
  from_token (version self) (_data self) = Err e ->
  service_catalog_calls from_token catalog_bool n self w
  = (replicate n (Err e), self,
     mk_World (heap w) (n + from_token_calls w)).
Proof.
  intros Hc Hb. revert w Hc.
  induction n as [|n IH]; intros w Hc.
  - now destruct w.
  - cbn [service_catalog_calls replicate].
    rewrite (service_catalog_rebuild self w Hc).
    unfold build_catalog. rewrite Hb.
    rewrite IH by exact Hc. cbn [heap from_token_calls count_call].
    now rewrite Nat.add_succ_r.
Qed.

Lemma calls_falsy_catalog (n : nat) (self : t) (w : World Catalog)
    (c : Catalog) :
  cache_unusable catalog_bool self w ->
  from_token (version self) (_data self) = Ok c ->
  catalog_bool c = false ->
  let out := service_catalog_calls from_token catalog_bool n self w in
  out.1.1 = Ok <$> seq (length (heap w)) n
  /\ heap out.2 = (heap w ++ replicate n c)%list
  /\ from_token_calls out.2 = (n + from_token_calls w)%nat.
Proof.
  intros Hc Hb Hfalse. revert self w Hc Hb.
  induction n as [|n IH]; intros self w Hc Hb.
  - cbn. now rewrite app_nil_r.
  - cbn [service_catalog_calls].
    rewrite (service_catalog_rebuild self w Hc).
    unfold build_catalog. rewrite Hb. cbn [alloc count_call heap].
    specialize (IH (set_service_catalog self (length (heap w)))
                  (mk_World (heap w ++ [c]) (S (from_token_calls w)))).
    destruct (service_catalog_calls _ _ n _ _) as [[rs self'] w'].
    cbn [fst snd] in *.
    destruct IH as (Hrs & Hheap & Hcalls).
    + unfold cache_unusable. cbn [_service_catalog set_service_catalog].
      now rewrite ref_truthy_fresh.
    + exact Hb.
    + cbn [heap from_token_calls] in *. repeat split.
      * cbn [seq fmap list_fmap]. f_equal.
        rewrite Hrs, length_app. cbn [length].
        now rewrite Nat.add_1_r.
      * rewrite Hheap. cbn [replicate].
        now rewrite <- app_assoc.
      * rewrite Hcalls. now rewrite Nat.add_succ_r.
Qed.

(** One read never touches the payload, the token or the class, never
    changes an object already on the heap, and calls the builder at most
    once. *)
Lemma service_catalog_frame (self : t) (w : World Catalog) :
  let out := service_catalog from_token catalog_bool self w in
  version out.1.2 = version self
  /\ _data out.1.2 = _data self
  /\ _auth_token out.1.2 = _auth_token self
  /\ heap w `prefix_of` heap out.2
  /\ (from_token_calls w <= from_token_calls out.2
      <= S (from_token_calls w))%nat.
Proof.
  unfold service_catalog, build_catalog.
  destruct (_service_catalog self) as [r|].
  - destruct (ref_truthy catalog_bool w r); cbn [negb].
    + cbn. repeat split; [reflexivity | lia | lia].
    + destruct (from_token _ _) as [c|e]; cbn.
      * repeat split; [now apply prefix_app_r | lia | lia].
      * repeat split; [reflexivity | lia | lia].
  - destruct (from_token _ _) as [c|e]; cbn.
    + repeat split; [now apply prefix_app_r | lia | lia].
    + repeat split; [reflexivity | lia | lia].
Qed.

End CatalogReads.

(** X23. A builder that raises leaves the cache empty: each of [n] reads
    of [service_catalog] raises that error again and calls the builder
    again ([n] calls in all), and no object is allocated. *)
Theorem X23_service_catalog_failing_builder
    {Catalog : Type}
    (from_token : Version -> value -> result Catalog)
    (catalog_bool : Catalog -> bool)
    (cls : Version) (body auth_token : value)
    (w : World Catalog) (e : exn) (n : nat)
    (Hfail : from_token cls body = Err e) :
  let self := AccessInfo.__init__ cls body auth_token in
  service_catalog_calls from_token catalog_bool n self w
  = (replicate n (Err e), self,
     mk_World (heap w) (n + from_token_calls w)).
Proof.
  intros self. apply calls_builder_fails; [exact I | exact Hfail].
Qed.

(** X24. The cache test is a truth test, not a test for [None]: with a
    builder whose catalog object is falsy, each of [n] reads builds
    again, so the reads return [n] different objects and the builder is
    called [n] times. *)
Theorem X24_service_catalog_falsy_catalog
    {Catalog : Type}
    (from_token : Version -> value -> result Catalog)
    (catalog_bool : Catalog -> bool)
    (cls : Version) (body auth_token : value)
    (w : World Catalog) (c : Catalog) (n : nat)
    (Hbuild : from_token cls body = Ok c)
    (Hfalsy : catalog_bool c = false) :
  let self := AccessInfo.__init__ cls body auth_token in
  let out := service_catalog_calls from_token catalog_bool n self w in
  out.1.1 = Ok <$> seq (length (heap w)) n
  /\ NoDup out.1.1
  /\ heap out.2 = (heap w ++ replicate n c)%list
  /\ from_token_calls out.2 = (n + from_token_calls w)%nat.
Proof.
  intros self out.
  destruct (calls_falsy_catalog from_token catalog_bool n self w c
              I Hbuild Hfalsy) as (Hrs & Hheap & Hcalls).
  fold out in Hrs, Hheap, Hcalls.
  repeat split; try assumption.
  rewrite Hrs. apply NoDup_fmap_2; [ | apply NoDup_seq].
  intros x y [= ->]. reflexivity.
Qed.

(** X25. Whatever the builder does and whatever the cache holds, [n]
    reads of [service_catalog] leave the class, the payload and the
    bearer token of the accessor as they were, keep every object
    already allocated in place, and call the builder at most [n]
    times. *)
Theorem X25_service_catalog_frame
    {Catalog : Type}
    (from_token : Version -> value -> result Catalog)
    (catalog_bool : Catalog -> bool)
    (n : nat) (self : AccessInfo.t) (w : World Catalog) :
  let out := service_catalog_calls from_token catalog_bool n self w in
  AccessInfo.version out.1.2 = AccessInfo.version self
  /\ AccessInfo._data out.1.2 = AccessInfo._data self
  /\ AccessInfo._auth_token out.1.2 = AccessInfo._auth_token self
  /\ heap w `prefix_of` heap out.2
  /\ (from_token_calls w <= from_token_calls out.2
      <= n + from_token_calls w)%nat
  /\ length out.1.1 = n.
Proof.
  revert self w. induction n as [|n IH]; intros self w.
  - cbn. repeat split; [reflexivity | lia | lia].
  - cbn [service_catalog_calls].
    pose proof (service_catalog_frame from_token catalog_bool self w) as Hf.
    destruct (service_catalog from_token catalog_bool self w)
      as [[r self1] w1].
    specialize (IH self1 w1).
    destruct (service_catalog_calls from_token catalog_bool n self1 w1)
      as [[rs self2] w2].
    cbn [fst snd] in *.
    destruct Hf as (Hv & Hd & Ht & Hp & Hc).
    destruct IH as (Hv' & Hd' & Ht' & Hp' & Hc' & Hl).
    repeat split; try congruence.
    + now transitivity (heap w1).
    + lia.
    + lia.
    + cbn [length]. now rewrite Hl.
Qed.

(** X26. Two accessors do not share a catalog: reading one and then the
    other builds twice and returns two different objects, and a later
    read of the first still returns the first object. *)
Theorem X26_service_catalog_per_instance
    {Catalog : Type}
    (from_token : Version -> value -> result Catalog)
    (catalog_bool : Catalog -> bool)
    (cls1 cls2 : Version) (body1 body2 tok1 tok2 : value)
    (w : World Catalog) (c1 c2 : Catalog)
    (Hbuild1 : from_token cls1 body1 = Ok c1)
    (Hbuild2 : from_token cls2 body2 = Ok c2)
    (Htruthy1 : catalog_bool c1 = true) :
  let a := AccessInfo.__init__ cls1 body1 tok1 in
  let b := AccessInfo.__init__ cls2 body2 tok2 in
  let read1 := service_catalog from_token catalog_bool a w in
  let read2 := service_catalog from_token catalog_bool b read1.2 in
  let read3 := service_catalog from_token catalog_bool read1.1.2 read2.2 in
  read1.1.1 = Ok (length (heap w))
  /\ read2.1.1 = Ok (S (length (heap w)))
  /\ read3.1.1 = read1.1.1
  /\ heap read3.2 = (heap w ++ [c1; c2])%list
  /\ from_token_calls read3.2 = S (S (from_token_calls w)).
Proof.
  intros a b read1 read2 read3. subst read3 read2 read1.
  rewrite (service_catalog_miss from_token catalog_bool a w c1)
    by (reflexivity || assumption).
  cbn [fst snd].
  rewrite (service_catalog_miss from_token catalog_bool b _ c2)
    by (reflexivity || assumption).
  cbn [fst snd heap from_token_calls].
  rewrite (service_catalog_hit from_token catalog_bool _ _
             (length (heap w))).
  - cbn [fst snd heap from_token_calls]. repeat split.
    + f_equal. rewrite length_app. cbn [length]. lia.
    + now rewrite <- app_assoc.
  - reflexivity.
  - unfold ref_truthy. cbn [heap].
    rewrite lookup_app_l by (rewrite length_app; cbn; lia).
    rewrite lookup_app_r by reflexivity.
    now rewrite Nat.sub_diag.
Qed.

(** ** What the wrapped accessors never do *)

(** X27. No accessor wrapped by [missingproperty] ever raises [KeyError],
    whatever the payload is (other errors, such as [TypeError] on a
    malformed payload, still come through); the same holds for the three
    scope flags of the newer schema, which catch it themselves. *)
Theorem X27_wrapped_accessors_never_KeyError
    (parse_isotime : value -> result datetime) (self : AccessInfo.t) :
  Forall (fun r : result value => is_KeyError r = false)
    [AccessInfoV2.auth_token self; AccessInfoV2._token self;
     AccessInfoV2.expires parse_isotime self; AccessInfoV2.issued self;
     AccessInfoV2.username self; AccessInfoV2.user_id self;
     AccessInfoV2.role_ids self; AccessInfoV2.role_names self;
     AccessInfoV2.trust_id self; AccessInfoV2.trustee_user_id self;
     AccessInfoV3.expires parse_isotime self;
     AccessInfoV3.issued parse_isotime self;
     AccessInfoV3.user_id self; AccessInfoV3.username self;
     AccessInfoV3.role_ids self; AccessInfoV3.role_names self;
     AccessInfoV3._domain self; AccessInfoV3.domain_name self;
     AccessInfoV3.domain_id self; AccessInfoV3.project_id self;
     AccessInfoV3.project_domain_id self; AccessInfoV3.project_name self;
     AccessInfoV3.trust_id self; AccessInfoV3.trustee_user_id self;
     AccessInfoV3.trustor_user_id self;
     AccessInfoV3.oauth_access_token_id self;
     AccessInfoV3.oauth_consumer_id self;
     AccessInfoV3.audit_id self; AccessInfoV3.audit_chain_id self]
  /\ Forall (fun r : result bool => is_KeyError r = false)
       [AccessInfoV3.project_scoped self; AccessInfoV3.domain_scoped self;
        AccessInfoV3.trust_scoped self].
Proof.
  split.
  - repeat (apply Forall_cons; split;
            [apply missingproperty_no_KeyError | ]).
    apply Forall_nil. exact I.
  - unfold AccessInfoV3.project_scoped, AccessInfoV3.domain_scoped,
      AccessInfoV3.trust_scoped.
    repeat (apply Forall_cons; split;
            [match goal with
             | |- context [match ?m with _ => _ end] =>
                 destruct m as [v|[]]; reflexivity
             end | ]).
    apply Forall_nil. exact I.
Qed.

(** * The further properties at sample payloads *)

Lemma X1_create_result_witness :
  create None Fixtures.v2_scoped VNone
    = Ok (new_AccessInfoV2 Fixtures.v2_scoped VNone)
  /\ exists b : value,
       payload None Fixtures.v2_scoped = Ok b
       /\ AccessInfo._data (new_AccessInfoV2 Fixtures.v2_scoped VNone) = b
       /\ AccessInfo._service_catalog
            (new_AccessInfoV2 Fixtures.v2_scoped VNone) = None
       /\ ((AccessInfo.version (new_AccessInfoV2 Fixtures.v2_scoped VNone)
            = V3 /\ Py.contains "token" b = Ok true)
           \/ (AccessInfo.version (new_AccessInfoV2 Fixtures.v2_scoped VNone)
               = V2
               /\ Py.contains "token" b = Ok false
               /\ Py.contains "access" b = Ok true)).
Proof.
  split; [reflexivity | ].
  exact (X1_create_result None Fixtures.v2_scoped VNone
           (new_AccessInfoV2 Fixtures.v2_scoped VNone) eq_refl).
Defined.

Lemma X2_create_stored_token_witness :
  create (Some (Fixtures.response Fixtures.v3_full)) VNone VNone
    = Ok (new_AccessInfoV3 Fixtures.v3_full (VStr "hdr"))
  /\ AccessInfo._auth_token (new_AccessInfoV3 Fixtures.v3_full (VStr "hdr"))
     = resp_headers_get (Fixtures.response Fixtures.v3_full)
         "X-Subject-Token".
Proof.
  split; [reflexivity | ].
  destruct (X2_create_stored_token
              (Some (Fixtures.response Fixtures.v3_full)) VNone VNone
              (new_AccessInfoV3 Fixtures.v3_full (VStr "hdr")) eq_refl)
    as (_ & _ & _ & _ & Hheader).
  apply (Hheader (Fixtures.response Fixtures.v3_full)); reflexivity.
Defined.

Lemma X3_create_then_auth_token_witness :
  (create (Some (Fixtures.response Fixtures.v2_scoped)) VNone VNone
   ≫= auth_token) = Ok (VStr "abc").
Proof.
  destruct (X3_create_then_auth_token
              (Some (Fixtures.response Fixtures.v2_scoped)) VNone VNone
              (Samples.fields Fixtures.v2_scoped) eq_refl)
    as (_ & Hv2).
  apply Hv2; [reflexivity | eexists; reflexivity | reflexivity
             | reflexivity].
Defined.

Lemma X4_create_reads_json_only_without_body_witness :
  create (Some (Fixtures.response Fixtures.v3_full)) Fixtures.v2_scoped VNone
  = create (Some (mk_Response true (Err TypeError)
                    (resp_headers_get
                       (Fixtures.response Fixtures.v3_full))))
      Fixtures.v2_scoped VNone.
Proof.
  destruct (X4_create_reads_json_only_without_body
              (Fixtures.response Fixtures.v3_full) Fixtures.v2_scoped VNone)
    as (Hsame & _).
  apply (Hsame (or_introl eq_refl) (Err TypeError)).
Defined.

Lemma X5_create_not_a_container_witness :
  payload None VNone = Ok VNone
  /\ create None VNone VNone = Err TypeError.
Proof.
  split; [reflexivity | ].
  exact (X5_create_not_a_container None VNone VNone VNone eq_refl I).
Defined.

Lemma X6_V2_project_id_fallback_witness :
  AccessInfoV2.project_id (new_AccessInfoV2 Fixtures.v2_scoped VNone)
    = Ok (VStr "p1")
  /\ AccessInfoV2.project_id (new_AccessInfoV2 Samples.v2_tenantId_X VNone)
     = Ok (VStr "X").
Proof.
  split.
  - destruct (X6_V2_project_id_fallback
                (new_AccessInfoV2 Fixtures.v2_scoped VNone)
                Fixtures.v2_scoped_token eq_refl) as (Htenant & _).
    exact (Htenant (list_to_map [("id", VStr "p1"); ("name", VStr "demo")])
             eq_refl).
  - destruct (X6_V2_project_id_fallback
                (new_AccessInfoV2 Samples.v2_tenantId_X VNone)
                (list_to_map [("tenantId", VStr "X")]) eq_refl)
      as (_ & Hrest).
    destruct (Hrest eq_refl) as (_ & Hnouser).
    exact (Hnouser eq_refl).
Defined.

Lemma X7_V2_username_fallback_witness :
  AccessInfoV2.username (new_AccessInfoV2 Fixtures.v2_scoped VNone)
    = Ok (VStr "joe")
  /\ AccessInfoV2.username (new_AccessInfoV2 Samples.v2_empty VNone)
     = Ok VNone.
Proof.
  split.
  - exact (proj1 (X7_V2_username_fallback
                    (new_AccessInfoV2 Fixtures.v2_scoped VNone))
             Fixtures.v2_scoped_user eq_refl).
  - exact (proj2 (X7_V2_username_fallback
                    (new_AccessInfoV2 Samples.v2_empty VNone)) eq_refl).
Defined.

Lemma X8_V2_without_token_witness :
  path_missing Samples.v2_empty ["access"; "token"]
  /\ AccessInfoV2.project_name (new_AccessInfoV2 Samples.v2_empty VNone)
     = Err TypeError
  /\ AccessInfoV2.expires Samples.parse_micros
       (new_AccessInfoV2 Samples.v2_empty VNone)
     = Err AttributeError.
Proof.
  split; [reflexivity | ].
  destruct (X8_V2_without_token Samples.parse_micros
              (new_AccessInfoV2 Samples.v2_empty VNone) eq_refl)
    as (_ & _ & Hname & _ & _ & Hexpires & _).
  split; assumption.
Defined.

Lemma X9_V3_roles_witness :
  AccessInfoV3.role_ids (new_AccessInfoV3 Fixtures.v3_full VNone)
    = Ok (VList [VStr "r1"; VStr "r2"])
  /\ AccessInfoV3.role_names (new_AccessInfoV3 Fixtures.v3_full VNone)
     = Ok (VList [VStr "admin"; VStr "member"])
  /\ AccessInfoV3.role_names
       (new_AccessInfoV3 Fixtures.v3_role_without_name VNone)
     = Ok VNone.
Proof.
  destruct (X9_V3_roles (new_AccessInfoV3 Fixtures.v3_full VNone)
              Fixtures.v3_full_token eq_refl) as (_ & Hfull).
  destruct (Hfull [list_to_map [("id", VStr "r1"); ("name", VStr "admin")];
                   list_to_map [("id", VStr "r2"); ("name", VStr "member")]]
              eq_refl) as (Hids & Hnames & _).
  destruct (X9_V3_roles
              (new_AccessInfoV3 Fixtures.v3_role_without_name VNone)
              (list_to_map
                 [("roles",
                   VList [Samples.dict [("id", VStr "r1");
                                        ("name", VStr "admin")];
                          Samples.dict [("id", VStr "r2")]])])
              eq_refl) as (_ & Hpartial).
  destruct (Hpartial [list_to_map [("id", VStr "r1");
                                   ("name", VStr "admin")];
                      list_to_map [("id", VStr "r2")]]
              eq_refl) as (_ & Hnone & _).
  split; [exact Hids | split; [exact Hnames | exact Hnone]].
Defined.

Lemma X10_V2_role_names_witness :
  AccessInfoV2.role_names (new_AccessInfoV2 Fixtures.v2_scoped VNone)
    = Ok (VList [VStr "admin"])
  /\ AccessInfoV2.role_names (new_AccessInfoV2 Samples.v2_empty VNone)
     = Ok VNone.
Proof.
  split.
  - destruct (proj1 (X10_V2_role_names
                       (new_AccessInfoV2 Fixtures.v2_scoped VNone))
                Fixtures.v2_scoped_user eq_refl) as (_ & Hroles).
    exact (Hroles [list_to_map [("name", VStr "admin")]] eq_refl).
  - exact (proj2 (X10_V2_role_names
                    (new_AccessInfoV2 Samples.v2_empty VNone)) eq_refl).
Defined.

Lemma X11_audit_ids_witness :
  audit_id (new_AccessInfoV3 Fixtures.v3_unscoped VNone) = Ok (VStr "a1")
  /\ audit_chain_id (new_AccessInfoV3 Fixtures.v3_unscoped VNone) = Ok VNone
  /\ audit_chain_id (new_AccessInfoV2 Fixtures.v2_scoped VNone)
     = Ok (VStr "a2")
  /\ audit_id (new_AccessInfoV2 Samples.v2_unscoped VNone) = Ok VNone.
Proof.
  destruct (proj1 (X11_audit_ids
                     (new_AccessInfoV3 Fixtures.v3_unscoped VNone)
                     Fixtures.v3_unscoped_token eq_refl)
              [VStr "a1"] eq_refl) as (H1 & H2).
  destruct (proj1 (X11_audit_ids
                     (new_AccessInfoV2 Fixtures.v2_scoped VNone)
                     Fixtures.v2_scoped_token eq_refl)
              [VStr "a1"; VStr "a2"] eq_refl) as (_ & H3).
  destruct (proj2 (X11_audit_ids
                     (new_AccessInfoV2 Samples.v2_unscoped VNone)
                     (list_to_map [("id", VStr "abc");
                                   ("expires", VStr "2038-01-18T21:14:07Z")])
                     eq_refl) eq_refl) as (H4 & _).
  repeat split; assumption.
Defined.

Lemma X12_initial_audit_id_witness :
  initial_audit_id (new_AccessInfoV3 Fixtures.v3_unscoped VNone)
    = Ok (VStr "a1")
  /\ initial_audit_id (new_AccessInfoV3 Fixtures.v3_full VNone)
     = Ok (VStr "a2").
Proof.
  split.
  - destruct (X12_initial_audit_id
                (new_AccessInfoV3 Fixtures.v3_unscoped VNone)
                Fixtures.v3_unscoped_token [VStr "a1"] eq_refl eq_refl)
      as (_ & Hone & _).
    exact (Hone (VStr "a1") eq_refl).
  - destruct (X12_initial_audit_id
                (new_AccessInfoV3 Fixtures.v3_full VNone)
                Fixtures.v3_full_token [VStr "a1"; VStr "a2"]
                eq_refl eq_refl)
      as (_ & _ & Htwo).
    apply (Htwo "a1" "a2"); [reflexivity | discriminate].
Defined.

Lemma X13_V3_domain_witness :
  AccessInfoV3.domain_name (new_AccessInfoV3 Fixtures.v3_full VNone)
    = Err TypeError
  /\ AccessInfoV3.domain_scoped (new_AccessInfoV3 Fixtures.v3_full VNone)
     = Ok false.
Proof.
  destruct (proj2 (X13_V3_domain (new_AccessInfoV3 Fixtures.v3_full VNone)
                     Fixtures.v3_full_token eq_refl) eq_refl)
    as (Hname & _ & Hscoped).
  split; assumption.
Defined.

Lemma X14_V3_scope_flags_witness :
  AccessInfoV3.project_scoped (new_AccessInfoV3 Fixtures.v3_full VNone)
    = Ok true
  /\ AccessInfoV3.trust_scoped (new_AccessInfoV3 Fixtures.v3_unscoped VNone)
     = Ok false
  /\ AccessInfoV3.project_scoped (new_AccessInfoV3 Samples.v2_empty VNone)
     = Ok false.
Proof.
  destruct (X14_V3_scope_flags (new_AccessInfoV3 Fixtures.v3_full VNone)
              (Samples.fields Fixtures.v3_full) eq_refl)
    as (_ & Hfull & _).
  destruct (Hfull Fixtures.v3_full_token eq_refl) as (Hp & _ & _).
  destruct (X14_V3_scope_flags (new_AccessInfoV3 Fixtures.v3_unscoped VNone)
              (Samples.fields Fixtures.v3_unscoped) eq_refl)
    as (_ & Hunscoped & _).
  destruct (Hunscoped Fixtures.v3_unscoped_token eq_refl) as (_ & _ & Ht).
  destruct (X14_V3_scope_flags (new_AccessInfoV3 Samples.v2_empty VNone)
              (Samples.fields Samples.v2_empty) eq_refl)
    as (Hnotoken & _).
  destruct (Hnotoken eq_refl) as (Hp' & _).
  split; [exact Hp | split; [exact Ht | exact Hp']].
Defined.

Lemma X15_scoped_witness :
  scoped (new_AccessInfoV2 Fixtures.v2_scoped VNone) = Ok true
  /\ scoped (new_AccessInfoV3 Fixtures.v3_unscoped VNone) = Ok false.
Proof.
  split.
  - exact (X15_scoped (new_AccessInfoV2 Fixtures.v2_scoped VNone)
             Fixtures.v2_scoped_token eq_refl).
  - exact (X15_scoped (new_AccessInfoV3 Fixtures.v3_unscoped VNone)
             Fixtures.v3_unscoped_token eq_refl).
Defined.

Lemma X16_V3_absent_subtrees_witness :
  AccessInfoV3.project_id (new_AccessInfoV3 Fixtures.v3_unscoped VNone)
    = Ok VNone
  /\ AccessInfoV3.trustor_user_id
       (new_AccessInfoV3 Fixtures.v3_unscoped VNone) = Ok VNone
  /\ AccessInfoV3.oauth_consumer_id
       (new_AccessInfoV3 Fixtures.v3_unscoped VNone) = Ok VNone.
Proof.
  destruct (X16_V3_absent_subtrees
              (new_AccessInfoV3 Fixtures.v3_unscoped VNone)
              Fixtures.v3_unscoped_token eq_refl)
    as (Hproject & Htrust & Hoauth).
  destruct (Hproject eq_refl) as (_ & Hid & _).
  destruct (Htrust eq_refl) as (_ & _ & _ & Htrustor).
  destruct (Hoauth eq_refl) as (_ & Hconsumer).
  split; [exact Hid | split; [exact Htrustor | exact Hconsumer]].
Defined.

Lemma X17_V3_without_user_witness :
  AccessInfoV3.user_domain_id (new_AccessInfoV3 Fixtures.v3_no_user VNone)
    = Err (KeyError "user")
  /\ AccessInfoV3.user_id (new_AccessInfoV3 Fixtures.v3_no_user VNone)
     = Ok VNone.
Proof.
  destruct (X17_V3_without_user (new_AccessInfoV3 Fixtures.v3_no_user VNone)
              ∅ eq_refl eq_refl) as (_ & Hdomain & _ & Hid & _).
  split; assumption.
Defined.

Lemma X18_V3_user_domain_present_witness :
  AccessInfoV3.user_domain_id (new_AccessInfoV3 Fixtures.v3_unscoped VNone)
  = Ok (VStr "d1").
Proof.
  destruct (X18_V3_user_domain_present
              (new_AccessInfoV3 Fixtures.v3_unscoped VNone)
              (list_to_map [("id", VStr "u1"); ("name", VStr "joe");
                            ("domain", Samples.dict [("id", VStr "d1")])])
              (list_to_map [("id", VStr "d1")]) eq_refl eq_refl)
    as (Hid & _).
  exact (Hid (VStr "d1") eq_refl).
Defined.

Lemma X19_will_expire_soon_monotone_witness :
  will_expire_soon Samples.parse_micros
    (new_AccessInfoV3 (Samples.v3_expires_at 1010000000) VNone)
    1000000000 (Some 20) = Ok true
  /\ will_expire_soon Samples.parse_micros
       (new_AccessInfoV3 (Samples.v3_expires_at 1010000000) VNone)
       1005000000 (Some 30) = Ok true.
Proof.
  split; [reflexivity | ].
  apply (X19_will_expire_soon_monotone Samples.parse_micros
           (new_AccessInfoV3 (Samples.v3_expires_at 1010000000) VNone)
           (mk_datetime 1010000000 None) 1000000000 1005000000 20 30);
    [reflexivity | lia | lia | reflexivity].
Defined.

Lemma X20_will_expire_soon_window_witness :
  will_expire_soon Samples.parse_micros
    (new_AccessInfoV3 (Samples.v3_expires_at 1010000000) VNone)
    1000000000 None = Ok true
  /\ will_expire_soon Samples.parse_micros
       (new_AccessInfoV3 (Samples.v3_expires_at 1010000000) VNone)
       1000000000 (Some 0) = Ok false.
Proof.
  destruct (X20_will_expire_soon_window Samples.parse_micros
              (new_AccessInfoV3 (Samples.v3_expires_at 1010000000) VNone)
              1000000000) as (_ & Hwindow).
  destruct (Hwindow (mk_datetime 1010000000 None) eq_refl) as (_ & Hin).
  apply Hin. unfold utc_instant, seconds. cbn [utcoffset wall]. lia.
Defined.

Lemma X21_will_expire_soon_time_zone_witness :
  will_expire_soon Fixtures.parse_stamp
    (new_AccessInfoV3 (Fixtures.v3_expires_aware 4610000000 3600000000)
       VNone)
    1000000000 None
  = will_expire_soon Fixtures.parse_stamp
      (new_AccessInfoV3 (Samples.v3_expires_at 1010000000) VNone)
      1000000000 None.
Proof.
  apply (X21_will_expire_soon_time_zone Fixtures.parse_stamp _ _
           (mk_datetime 4610000000 (Some 3600000000))
           (mk_datetime 1010000000 None));
    reflexivity.
Defined.

Lemma X22_will_expire_soon_without_expiry_witness :
  expires Samples.parse_micros (new_AccessInfoV3 Fixtures.v3_unscoped VNone)
    = Ok VNone
  /\ will_expire_soon Samples.parse_micros
       (new_AccessInfoV3 Fixtures.v3_unscoped VNone) 1000000000 None
     = Err AttributeError.
Proof.
  destruct (X22_will_expire_soon_without_expiry Samples.parse_micros
              (new_AccessInfoV3 Fixtures.v3_unscoped VNone)
              1000000000 None) as (Hmissing & _).
  exact (Hmissing Fixtures.v3_unscoped_token eq_refl eq_refl eq_refl).
Defined.

Lemma X23_service_catalog_failing_builder_witness :
  (service_catalog_calls Fixtures.failing_from_token Samples.object_bool 3
     (new_AccessInfoV2 Fixtures.v2_scoped VNone) Samples.empty_world).2
  = mk_World [] 3.
Proof.
  exact (f_equal snd
           (X23_service_catalog_failing_builder Fixtures.failing_from_token
              Samples.object_bool V2 Fixtures.v2_scoped VNone
              Samples.empty_world
              (ValueError "Invalid token format for fetching catalog") 3
              eq_refl)).
Defined.

Lemma X24_service_catalog_falsy_catalog_witness :
  let out := service_catalog_calls Samples.stub_from_token
               Fixtures.falsy_bool 3
               (new_AccessInfoV2 Fixtures.v2_scoped VNone)
               Samples.empty_world in
  out.1.1 = [Ok 0%nat; Ok 1%nat; Ok 2%nat]
  /\ from_token_calls out.2 = 3%nat.
Proof.
  destruct (X24_service_catalog_falsy_catalog Samples.stub_from_token
              Fixtures.falsy_bool V2 Fixtures.v2_scoped VNone
              Samples.empty_world (VDict ∅) 3 eq_refl eq_refl)
    as (Hrs & _ & _ & Hcalls).
  split; [exact Hrs | exact Hcalls].
Defined.

Lemma X26_service_catalog_per_instance_witness :
  let a := new_AccessInfoV2 Fixtures.v2_scoped VNone in
  let b := new_AccessInfoV3 Fixtures.v3_full VNone in
  let read1 := service_catalog Samples.stub_from_token Samples.object_bool
                 a Samples.empty_world in
  let read2 := service_catalog Samples.stub_from_token Samples.object_bool
                 b read1.2 in
  let read3 := service_catalog Samples.stub_from_token Samples.object_bool
                 read1.1.2 read2.2 in
  read1.1.1 = Ok 0%nat
  /\ read2.1.1 = Ok 1%nat
  /\ read3.1.1 = read1.1.1
  /\ heap read3.2 = [VDict ∅; VList []]
  /\ from_token_calls read3.2 = 2%nat.
Proof.
  exact (X26_service_catalog_per_instance Samples.stub_from_token
           Samples.object_bool V2 V3 Fixtures.v2_scoped Fixtures.v3_full
           VNone VNone Samples.empty_world (VDict ∅) (VList [])
           eq_refl eq_refl eq_refl).
Defined.
